(** * Price extraction, price history and change reporting of the Taobao monitor

    A shallow embedding of [taobaoScraper.py]: the extraction strategy chain
    of [TaobaoScraper], the history store of [PriceHistoryManager], the
    suggested price of [SimplePushReporter] and the per-product step of
    [PriceMonitor], with the properties the specification states about them.

    Python [str] values are lists of Unicode code points, [float] values are
    IEEE 754 binary64 numbers ([spec_float] at precision 53), a raised
    exception is the [Raise] case of [outcome], and the browser is a record
    of the answers it gives to the calls the scraper makes. *)

From Stdlib Require Import ZArith NArith QArith Qround List Bool String Ascii Lia.
From Stdlib Require Import Floats.SpecFloat.
From stdpp Require Import base option gmap.

Import ListNotations.
Local Open Scope Z_scope.

(** ** Strings *)

Module Str.

(** A Python [str]: a sequence of code points. *)
Abbreviation str := (list N).

(** Decoder for the UTF-8 bytes of a literal of this file. [acc] holds the
    bits read so far of a multi-byte character and [k] the number of
    continuation bytes still expected. *)
Fixpoint utf8_go (acc : N) (k : nat) (bs : list N) : str :=
  match bs with
  | [] => []
  | b :: bs' =>
      match k with
      | S k' =>
          let acc' := (acc * 64 + b mod 64)%N in
          match k' with
          | O => acc' :: utf8_go 0%N O bs'
          | S _ => utf8_go acc' k' bs'
          end
      | O =>
          if (b <? 128)%N then b :: utf8_go 0%N O bs'
          else if (b <? 224)%N then utf8_go (b mod 32)%N 1%nat bs'
          else if (b <? 240)%N then utf8_go (b mod 16)%N 2%nat bs'
          else utf8_go (b mod 8)%N 3%nat bs'
      end
  end.

Definition u (s : string) : str :=
  utf8_go 0%N O (List.map N_of_ascii (list_ascii_of_string s)).

Definition str_eqb (a b : str) : bool := bool_decide (a = b).

(** [prefix in s]: [s.startswith(prefix)], giving the rest. *)
Fixpoint strip_prefix (p s : str) : option str :=
  match p with
  | [] => Some s
  | c :: p' =>
      match s with
      | [] => None
      | d :: s' => if (c =? d)%N then strip_prefix p' s' else None
      end
  end.

(** [needle in s] *)
Fixpoint contains (needle s : str) : bool :=
  match strip_prefix needle s with
  | Some _ => true
  | None => match s with [] => false | _ :: s' => contains needle s' end
  end.

(** [s.split(sep)[0]] for a one-character separator: the text before the
    first occurrence of [sep], or all of [s]. *)
Fixpoint before_first (sep : N) (s : str) : str :=
  match s with
  | [] => []
  | c :: s' => if (c =? sep)%N then [] else c :: before_first sep s'
  end.

(** Truth value of an optional string: [None] and [""] are falsy. *)
Definition truthy (p : option str) : bool :=
  match p with
  | Some (_ :: _) => true
  | _ => false
  end.

End Str.
Import Str.

(** ** Exceptions *)

Inductive exn :=
| ValueError
| OverflowError
| ZeroDivisionError
| TypeError
| IndexError
| OSError
| BrowserError.

(** The result of evaluating a Python expression: a value or a raised
    exception. *)
Inductive outcome (A : Type) :=
| Ok (a : A)
| Raise (e : exn).
Arguments Ok {A} a.
Arguments Raise {A} e.

#[global] Instance outcome_ret : MRet outcome := fun _ a => Ok a.
#[global] Instance outcome_bind : MBind outcome := fun _ _ f m =>
  match m with
  | Ok a => f a
  | Raise e => Raise e
  end.

(** [try: body  except Exception: handler] *)
Definition try_except {A} (body : outcome A) (handler : exn -> outcome A) : outcome A :=
  match body with
  | Ok a => Ok a
  | Raise e => handler e
  end.

(** ** Character classes of Python's [re] on [str] patterns *)

Module Unicode.

(** Code points of the digit zero of every decimal-digit script (general
    category Nd, Unicode 14); the nine code points after each are its
    digits 1 to 9. *)
Definition nd_zeros : list N :=
  [48; 1632; 1776; 1984; 2406; 2534; 2662; 2790; 2918; 3046; 3174; 3302;
   3430; 3558; 3664; 3792; 3872; 4160; 4240; 6112; 6160; 6470; 6608; 6784;
   6800; 6992; 7088; 7232; 7248; 42528; 43216; 43264; 43472; 43504; 43600;
   44016; 65296; 66720; 68912; 69734; 69872; 69942; 70096; 70384; 70736;
   70864; 71248; 71360; 71472; 71904; 72016; 72784; 73040; 73120; 92768;
   92864; 93008; 120782; 120792; 120802; 120812; 120822; 123200; 123632;
   125264; 130032]%N.

Fixpoint digit_in (zs : list N) (c : N) : option N :=
  match zs with
  | [] => None
  | z :: zs' =>
      if ((z <=? c) && (c <? z + 10))%N then Some (c - z)%N else digit_in zs' c
  end.

(** Decimal value of a character, when it is a decimal digit. *)
Definition digit_value (c : N) : option N := digit_in nd_zeros c.

(** [\d] *)
Definition isdigit (c : N) : bool :=
  match digit_value c with Some _ => true | None => false end.

(** [\D] *)
Definition nondigit (c : N) : bool := negb (isdigit c).

(** [\s], which is [str.isspace] *)
Definition isspace (c : N) : bool :=
  ((9 <=? c) && (c <=? 13) || (28 <=? c) && (c <=? 32) || (c =? 133)
   || (c =? 160) || (c =? 5760) || (8192 <=? c) && (c <=? 8202)
   || (c =? 8232) || (c =? 8233) || (c =? 8239) || (c =? 8287)
   || (c =? 12288))%N.

(** [.] without DOTALL *)
Definition anychar (c : N) : bool := negb (c =? 10)%N.

End Unicode.
Import Unicode.

(** ** Regular expressions

    A backtracking matcher for the fragment of [re] the scraper uses. A
    pattern has at most one capturing group. [run r s] lists, in the order
    in which backtracking tries them, the ways [r] matches a prefix of [s]:
    the text of group 1 (when the group took part) and the unread rest. *)

Module Re.

Inductive regex :=
| Chr (p : N -> bool)
| Lit (l : str)
| Cat (r1 r2 : regex)
| Alt (r1 r2 : regex)
| Opt (r : regex)
| Rep (p : N -> bool) (lo : nat) (hi : option nat) (greedy : bool)
| Grp (r : regex).

(** Rests of [s] after [n] characters of class [p], for every
    [lo <= n <= hi]: longest first when greedy, shortest first when lazy. *)
Fixpoint rep_rests (p : N -> bool) (lo : nat) (hi : option nat)
    (greedy : bool) (s : str) : list str :=
  let stop := match lo with O => [s] | S _ => [] end in
  let more :=
    match s with
    | [] => []
    | c :: s' =>
        match hi with
        | Some O => []
        | _ => if p c then rep_rests p (Nat.pred lo) (Nat.pred <$> hi) greedy s'
               else []
        end
    end in
  if greedy then more ++ stop else stop ++ more.

Definition later_group (g1 g2 : option str) : option str :=
  match g2 with Some _ => g2 | None => g1 end.

Fixpoint run (r : regex) (s : str) : list (option str * str) :=
  match r with
  | Chr p =>
      match s with
      | c :: s' => if p c then [(None, s')] else []
      | [] => []
      end
  | Lit l =>
      match strip_prefix l s with
      | Some s' => [(None, s')]
      | None => []
      end
  | Cat r1 r2 =>
      List.flat_map
        (fun m1 => List.map (fun m2 => (later_group (fst m1) (fst m2), snd m2))
                            (run r2 (snd m1)))
        (run r1 s)
  | Alt r1 r2 => run r1 s ++ run r2 s
  | Opt r1 => run r1 s ++ [(None, s)]
  | Rep p lo hi greedy => List.map (fun s' => (None, s')) (rep_rests p lo hi greedy s)
  | Grp r1 =>
      List.map (fun m => (Some (List.firstn (length s - length (snd m)) s), snd m))
               (run r1 s)
  end.

(** [re.search(r, s)]: the first match at the leftmost position that has
    one; the result is the match's [group(1)]. *)
Fixpoint search (r : regex) (s : str) : option (option str) :=
  match run r s with
  | m :: _ => Some (fst m)
  | [] =>
      match s with
      | [] => None
      | _ :: s' => search r s'
      end
  end.

(** [re.findall(r, s)] for a pattern with one group: the group of every
    match, left to right, matches not overlapping. [skip] counts the
    characters of the last match still to pass. (None of the patterns
    below matches the empty string.) *)
Fixpoint findall_from (r : regex) (skip : nat) (s : str) : list str :=
  match skip with
  | S k =>
      match s with
      | [] => []
      | _ :: s' => findall_from r k s'
      end
  | O =>
      match run r s with
      | m :: _ =>
          default [] (fst m) ::
          match s with
          | [] => []
          | _ :: s' => findall_from r (Nat.pred (length s - length (snd m))) s'
          end
      | [] =>
          match s with
          | [] => []
          | _ :: s' => findall_from r O s'
          end
      end
  end.

Definition findall (r : regex) (s : str) : list str := findall_from r O s.

Definition plus (p : N -> bool) : regex := Rep p 1 None true.
Definition star (p : N -> bool) : regex := Rep p 0 None true.

(** [(\d+(?:\.\d+)?)] *)
Definition decimal : regex :=
  Grp (Cat (plus isdigit) (Opt (Cat (Lit (u ".")) (plus isdigit)))).

(** The words a pattern matches. *)
Fixpoint lang (r : regex) (w : str) : Prop :=
  match r with
  | Chr p => exists c, w = [c] /\ p c = true
  | Lit l => w = l
  | Cat r1 r2 => exists w1 w2, w = w1 ++ w2 /\ lang r1 w1 /\ lang r2 w2
  | Alt r1 r2 => lang r1 w \/ lang r2 w
  | Opt r1 => lang r1 w \/ w = []
  | Rep p lo hi _ =>
      Forall (fun c => p c = true) w
      /\ (lo <= length w)%nat
      /\ forall h, hi = Some h -> (length w <= h)%nat
  | Grp r1 => lang r1 w
  end.

(** The words group 1 can hold after a match. *)
Fixpoint group_lang (r : regex) (w : str) : Prop :=
  match r with
  | Grp r1 => lang r1 w
  | Cat r1 r2 => group_lang r1 w \/ group_lang r2 w
  | Alt r1 r2 => group_lang r1 w \/ group_lang r2 w
  | Opt r1 => group_lang r1 w
  | _ => False
  end.

(** Group 1 takes part in every match of the pattern. *)
Fixpoint captures (r : regex) : bool :=
  match r with
  | Grp _ => true
  | Cat r1 r2 => captures r1 || captures r2
  | Alt r1 r2 => captures r1 && captures r2
  | _ => false
  end.

End Re.


(** ** Floating-point numbers

    Python's [float] is IEEE 754 binary64; every operation rounds to
    nearest, ties to even. *)

Module Float.

Abbreviation float := spec_float.

Definition prec : Z := 53.
Definition emax : Z := 1024.

Definition mul : float -> float -> float := SFmul prec emax.
Definition sub : float -> float -> float := SFsub prec emax.
Definition div : float -> float -> float := SFdiv prec emax.
Definition ltb : float -> float -> bool := SFltb.
Definition leb : float -> float -> bool := SFleb.

(** [float(n)] for an integer that does not overflow. *)
Definition of_Z (n : Z) : float := binary_normalize prec emax n 0 false.

(** The float nearest to [m * 10^k], negated when [neg]. *)
Definition of_decimal (neg : bool) (m : N) (k : Z) : float :=
  match m with
  | N0 => S754_zero neg
  | Npos p =>
      if 0 <=? k then
        binary_normalize prec emax (if neg then - (Zpos p * 10 ^ k) else Zpos p * 10 ^ k) 0 false
      else
        SFdiv prec emax (S754_finite neg p 0)
                        (S754_finite false (Z.to_pos (10 ^ (- k))) 0)
  end.

Definition is_zero (x : float) : bool :=
  match x with S754_zero _ => true | _ => false end.

(** Truth value of a float: only zeros are falsy. *)
Definition truthy (x : float) : bool := negb (is_zero x).

(** [a / b] on floats. *)
Definition truediv (a b : float) : outcome float :=
  if is_zero b then Raise ZeroDivisionError else Ok (div a b).

(** [n / d] on integers: the float nearest to the exact quotient. *)
Definition int_truediv (n d : Z) : outcome float :=
  match d with
  | Z0 => Raise ZeroDivisionError
  | _ =>
      match n with
      | Z0 => Ok (S754_zero false)
      | _ =>
          let q := SFdiv prec emax
                     (S754_finite (n <? 0) (Z.to_pos (Z.abs n)) 0)
                     (S754_finite (d <? 0) (Z.to_pos (Z.abs d)) 0) in
          match q with
          | S754_infinity _ => Raise OverflowError
          | _ => Ok q
          end
      end
  end.

(** [math.ceil(x)] *)
Definition ceil (x : float) : outcome Z :=
  match x with
  | S754_nan => Raise ValueError
  | S754_infinity _ => Raise OverflowError
  | S754_zero _ => Ok 0
  | S754_finite s m e =>
      let sm := if s then Zneg m else Zpos m in
      if 0 <=? e then Ok (sm * 2 ^ e)
      else Ok (- ((- sm) / 2 ^ (- e)))
  end.

(** *** [float(str)] *)

Definition ascii_space (c : N) : bool :=
  ((9 <=? c) && (c <=? 13) || (c =? 32))%N.

Definition ascii_digit (c : N) : bool := ((48 <=? c) && (c <=? 57))%N.

(** Unicode spaces become a blank and Unicode digits their ASCII digit; at
    any other character from 127 on the text is cut and ends in [?]. *)
Fixpoint to_ascii (s : str) : str :=
  match s with
  | [] => []
  | c :: s' =>
      if (c <? 127)%N then c :: to_ascii s'
      else if isspace c then 32%N :: to_ascii s'
      else match digit_value c with
           | Some d => (48 + d)%N :: to_ascii s'
           | None => [63%N]
           end
  end.

Fixpoint lstrip (s : str) : str :=
  match s with
  | c :: s' => if ascii_space c then lstrip s' else s
  | [] => []
  end.

Definition strip (s : str) : str := rev (lstrip (rev (lstrip s))).

(** Every underscore stands between two digits. *)
Fixpoint underscores_ok (prev : N) (s : str) : bool :=
  match s with
  | [] => negb (prev =? 95)%N
  | c :: s' =>
      (if (c =? 95)%N then ascii_digit prev
       else negb (prev =? 95)%N || ascii_digit c)
      && underscores_ok c s'
  end.

Definition drop_underscores (s : str) : str :=
  List.filter (fun c => negb (c =? 95)%N) s.

(** The leading digits of [s], as values, and the rest. *)
Fixpoint span_digits (s : str) : list N * str :=
  match s with
  | c :: s' =>
      if ascii_digit c then
        let '(ds, rest) := span_digits s' in ((c - 48)%N :: ds, rest)
      else ([], s)
  | [] => ([], [])
  end.

Definition digits_value (ds : list N) : N :=
  fold_left (fun acc d => (acc * 10 + d)%N) ds 0%N.

Definition lower (c : N) : N :=
  if ((65 <=? c) && (c <=? 90))%N then (c + 32)%N else c.

Definition take_sign (s : str) : bool * str :=
  match s with
  | 45%N :: t => (true, t)
  | 43%N :: t => (false, t)
  | _ => (false, s)
  end.

(** The exponent part: [None] when the text after the mantissa is not an
    exponent that reaches the end. *)
Definition parse_exponent (s : str) : option Z :=
  match s with
  | [] => Some 0
  | c :: t =>
      if (lower c =? 101)%N then
        let '(neg, t1) := take_sign t in
        match span_digits t1 with
        | ((_ :: _) as ds, []) =>
            let e := Z.of_N (digits_value ds) in
            Some (if neg then - e else e)
        | _ => None
        end
      else None
  end.

Definition parse_number (s : str) : option float :=
  let '(neg, t) := take_sign s in
  let word := List.map lower t in
  if str_eqb word (u "inf") || str_eqb word (u "infinity") then
    Some (S754_infinity neg)
  else if str_eqb word (u "nan") then Some S754_nan
  else
    let '(ip, t1) := span_digits t in
    let '(fp, t2) :=
      match t1 with
      | 46%N :: t1' => span_digits t1'
      | _ => ([], t1)
      end in
    match ip ++ fp with
    | [] => None
    | ds =>
        match parse_exponent t2 with
        | Some e => Some (of_decimal neg (digits_value ds) (e - Z.of_nat (length fp)))
        | None => None
        end
    end.

(** [float(s)] for a string [s]. *)
Definition of_str (s : str) : outcome float :=
  let t := strip (to_ascii s) in
  if underscores_ok 0%N t then
    match parse_number (drop_underscores t) with
    | Some x => Ok x
    | None => Raise ValueError
    end
  else Raise ValueError.

(** *** Formatting with one decimal *)

Fixpoint uint_digits (d : Decimal.uint) : str :=
  match d with
  | Decimal.Nil => []
  | Decimal.D0 d' => 48%N :: uint_digits d'
  | Decimal.D1 d' => 49%N :: uint_digits d'
  | Decimal.D2 d' => 50%N :: uint_digits d'
  | Decimal.D3 d' => 51%N :: uint_digits d'
  | Decimal.D4 d' => 52%N :: uint_digits d'
  | Decimal.D5 d' => 53%N :: uint_digits d'
  | Decimal.D6 d' => 54%N :: uint_digits d'
  | Decimal.D7 d' => 55%N :: uint_digits d'
  | Decimal.D8 d' => 56%N :: uint_digits d'
  | Decimal.D9 d' => 57%N :: uint_digits d'
  end.

(** [str(n)] for a natural number. *)
Definition str_of_N (n : N) : str := uint_digits (N.to_uint n).

(** [|x| * 10] rounded to the nearest integer, ties to even. *)
Definition tenths (m : positive) (e : Z) : Z :=
  if 0 <=? e then Zpos m * 10 * 2 ^ e
  else
    let den := 2 ^ (- e) in
    let q := (Zpos m * 10) / den in
    let r := (Zpos m * 10) mod den in
    match (2 * r) ?= den with
    | Lt => q
    | Gt => q + 1
    | Eq => if Z.even q then q else q + 1
    end.

Definition fixed1 (q : Z) : str :=
  str_of_N (Z.to_N (q / 10)) ++ u "." ++ str_of_N (Z.to_N (q mod 10)).

(** [f"{x:.1f}"], and [f"{x:+.1f}"] when [plus]. *)
Definition format1 (plus : bool) (x : float) : str :=
  let sign (s : bool) := if s then u "-" else if plus then u "+" else [] in
  match x with
  | S754_nan => sign false ++ u "nan"
  | S754_infinity s => sign s ++ u "inf"
  | S754_zero s => sign s ++ u "0.0"
  | S754_finite s m e => sign s ++ fixed1 (tenths m e)
  end.

(** The ASCII character [to_ascii] writes for a digit. *)
Definition ascii_of (c : N) : N :=
  if (c <? 127)%N then c
  else match digit_value c with Some d => (48 + d)%N | None => 63%N end.

(** Digits, or digits, a point and digits, all ASCII. *)
Definition ascii_decimal (t : str) : Prop :=
  exists a rest,
    t = a ++ rest /\ a <> [] /\ Forall (fun c => ascii_digit c = true) a
    /\ (rest = []
        \/ exists b, rest = 46%N :: b /\ b <> []
                     /\ Forall (fun c => ascii_digit c = true) b).

(** The characters of an ASCII decimal. *)
Definition plain (c : N) : Prop :=
  ascii_space c = false /\ (c =? 95)%N = false.

(** The floats the filter keeps: finite and positive. *)
Definition positive_finite (x : float) : Prop :=
  exists m e, x = S754_finite false m e.

End Float.

(** ** The scraper *)

Module Scraper.

Import Re.

(** The four XPath selectors of [price_selectors], in their order: a
    [text] span after a span holding the yen sign, the sibling after a
    [unit] span holding the yen sign, a span with the yen sign inside a
    [price] block, a span inside a block styled red. *)
Inductive selector :=
| SelTextAfterYen
| SelAfterUnit
| SelInPriceDiv
| SelInRedDiv.

Definition price_selectors : list selector :=
  [SelTextAfterYen; SelAfterUnit; SelInPriceDiv; SelInRedDiv].

(** An element found by [page.eles]: its text and, when it has a parent,
    the parent's text. *)
Record element := Element {
  text : str;
  parent : option str
}.

(** What the browser answers for the loaded page. *)
Record page := Page {
  html : outcome unit;
  eles : selector -> outcome (list element);
  run_js : outcome (option str);
  body_text : outcome str
}.

(** [[¥￥\s]*(\d+(?:\.\d+)?)] *)
Definition yen_blank (c : N) : bool :=
  (c =? 165)%N || (c =? 65509)%N || isspace c.

Definition price_in_parent : regex := Cat (star yen_blank) decimal.

(** The first element of [l] on which [f] answers. *)
Fixpoint first_some {A B} (f : A -> option B) (l : list A) : option B :=
  match l with
  | [] => None
  | a :: l' =>
      match f a with
      | Some b => Some b
      | None => first_some f l'
      end
  end.

(** The two loops over the elements of one selector: [Some g] when one of
    them returns [g]. *)
Definition price_of_elements (elements : list element) : option (option str) :=
  match first_some (fun ele => search decimal (text ele)) elements with
  | Some g => Some g
  | None =>
      first_some
        (fun ele =>
           match parent ele with
           | Some parent_text => search price_in_parent parent_text
           | None => None
           end)
        elements
  end.

Fixpoint price_of_selectors (pg : page) (sels : list selector) : outcome (option str) :=
  match sels with
  | [] => Ok None
  | sel :: sels' =>
      elements ← eles pg sel;
      match price_of_elements elements with
      | Some g => Ok g
      | None => price_of_selectors pg sels'
      end
  end.

Definition _extract_price_strategy_1 (pg : page) : outcome (option str) :=
  price_of_selectors pg price_selectors.

Definition _extract_price_strategy_2 (pg : page) : outcome (option str) :=
  price_info ← run_js pg;
  if truthy price_info then
    match search decimal (default [] price_info) with
    | Some g => Ok g
    | None => Ok None
    end
  else Ok None.

(** The patterns of [price_patterns], in their order. *)
Definition yen : regex := Alt (Lit (u "¥")) (Lit (u "￥")).

Definition pattern_yen : regex :=
  Cat yen (Cat (star isspace) decimal).

Definition pattern_label : regex :=
  Cat (Alt (Lit (u "价格")) (Alt (Lit (u "促销价")) (Lit (u "折后价"))))
      (Cat (Rep anychar 0 (Some 10%nat) false) decimal).

Definition pattern_unit : regex :=
  Cat decimal (Cat (star isspace) (Alt (Lit (u "元")) (Lit (u "块钱")))).

Definition pattern_price_word : regex :=
  Cat (Alt (Lit (u "价格")) (Lit (u "价钱")))
      (Cat (Rep nondigit 0 None false) decimal).

Definition price_patterns : list regex :=
  [pattern_yen; pattern_label; pattern_unit; pattern_price_word].

(** [[p for p in matches if float(p) > 0 and float(p) < 100000]] *)
Definition in_range (p : str) : outcome bool :=
  x ← Float.of_str p;
  if Float.ltb (S754_zero false) x then
    y ← Float.of_str p;
    Ok (Float.ltb y (Float.of_Z 100000))
  else Ok false.

Fixpoint valid_prices (matches : list str) : outcome (list str) :=
  match matches with
  | [] => Ok []
  | p :: ps =>
      keep ← in_range p;
      rest ← valid_prices ps;
      Ok (if keep : bool then p :: rest else rest)
  end.

(** [sorted(l, key=float)]: the keys are computed first, then the list is
    sorted by them, equal keys keeping their order. *)
Fixpoint with_keys (l : list str) : outcome (list (Float.float * str)) :=
  match l with
  | [] => Ok []
  | p :: ps =>
      k ← Float.of_str p;
      rest ← with_keys ps;
      Ok ((k, p) :: rest)
  end.

Fixpoint insert_by_key (x : Float.float * str) (l : list (Float.float * str))
    : list (Float.float * str) :=
  match l with
  | [] => [x]
  | y :: l' =>
      if Float.ltb (fst y) (fst x) then y :: insert_by_key x l'
      else x :: y :: l'
  end.

Definition sort_by_key (l : list (Float.float * str)) : list (Float.float * str) :=
  List.fold_right insert_by_key [] l.

Definition sorted_by_float (l : list str) : outcome (list str) :=
  keyed ← with_keys l;
  Ok (List.map snd (sort_by_key keyed)).

Fixpoint price_of_patterns (page_text : str) (patterns : list regex)
    : outcome (option str) :=
  match patterns with
  | [] => Ok None
  | pattern :: patterns' =>
      match findall pattern page_text with
      | [] => price_of_patterns page_text patterns'
      | matches =>
          valid ← valid_prices matches;
          match valid with
          | [] => price_of_patterns page_text patterns'
          | _ =>
              sorted ← sorted_by_float valid;
              Ok (List.head sorted)
          end
      end
  end.

Definition _extract_price_strategy_3 (pg : page) : outcome (option str) :=
  page_text ← body_text pg;
  price_of_patterns page_text price_patterns.

Definition extraction_strategies : list (page -> outcome (option str)) :=
  [_extract_price_strategy_1; _extract_price_strategy_2; _extract_price_strategy_3].

(** One turn of the loop of [extract_price]: the new value of [price] and
    whether the loop is left by [break]. *)
Definition attempt (result : outcome (option str)) (price : option str)
    : option str * bool :=
  match result with
  | Raise _ => (price, false)
  | Ok p =>
      if truthy p then
        match search decimal (default [] p) with
        | Some g =>
            match (match g with
                   | Some t => Float.of_str t
                   | None => Raise TypeError
                   end) with
            | Ok _ => (p, true)
            | Raise ValueError => (None, false)
            | Raise _ => (p, false)
            end
        | None => (None, false)
        end
      else (p, false)
  end.

Fixpoint try_strategies (pg : page)
    (strategies : list (page -> outcome (option str))) (price : option str)
    : option str :=
  match strategies with
  | [] => price
  | strategy :: strategies' =>
      let '(price', stop) := attempt (strategy pg) price in
      if stop then price' else try_strategies pg strategies' price'
  end.

Definition BROWSER_MISSING : str := u "浏览器未初始化".
Definition NOT_FOUND : str := u "未找到价格".

(** [extract_price]. [self_page] is [self.page]. The page source is written
    first when [save_debug_info]; the screenshot taken after the loop sits
    in a [try] of its own and has no part in the result. *)
Definition extract_price (self_page : option page) (save_debug_info : bool)
    : outcome (str * bool) :=
  match self_page with
  | None => Ok (BROWSER_MISSING, false)
  | Some pg =>
      _ ← (if save_debug_info then html pg else Ok ());
      let price := try_strategies pg extraction_strategies None in
      if truthy price then Ok (default [] price, true)
      else Ok (NOT_FOUND, false)
  end.

End Scraper.

(** ** The price history *)

Module History.

(** One entry of [price_history]. *)
Record entry := Entry {
  name : str;
  price : str;
  last_update : str
}.

Definition set_name (v : str) (e : entry) : entry :=
  {| name := v; price := price e; last_update := last_update e |}.
Definition set_price (v : str) (e : entry) : entry :=
  {| name := name e; price := v; last_update := last_update e |}.
Definition set_last_update (v : str) (e : entry) : entry :=
  {| name := name e; price := price e; last_update := v |}.

(** The dictionary returned by [check_price_change]. *)
Record change := Change {
  is_new_item : bool;
  has_changed : bool;
  old_price : option str
}.

(** [check_price_change] on the dictionary [price_history]; [timestamp] is
    the formatted reading of the clock. The result is the dictionary
    after the call and the returned [result]. *)
Definition check_price_change (price_history : gmap str entry) (timestamp : str)
    (item_id product_name current_price : str) : gmap str entry * change :=
  match price_history !! item_id with
  | None =>
      (<[item_id := {| name := product_name; price := current_price;
                       last_update := timestamp |}]> price_history,
       {| is_new_item := true; has_changed := false; old_price := None |})
  | Some e =>
      let h1 := alter (set_name product_name) item_id price_history in
      let old := price e in
      if negb (str_eqb old current_price) then
        let h2 := alter (set_price current_price) item_id h1 in
        let h3 := alter (set_last_update timestamp) item_id h2 in
        (h3, {| is_new_item := false; has_changed := true; old_price := Some old |})
      else
        (h1, {| is_new_item := false; has_changed := false; old_price := Some old |})
  end.

(** [check_price_change] called with the same arguments once for every
    clock reading of [timestamps]: the dictionary after the last call and
    the results of the calls, in their order. *)
Fixpoint check_repeatedly (price_history : gmap str entry) (timestamps : list str)
    (item_id product_name current_price : str) : gmap str entry * list change :=
  match timestamps with
  | [] => (price_history, [])
  | timestamp :: later =>
      let '(h1, result) :=
        check_price_change price_history timestamp item_id product_name current_price in
      let '(h2, results) :=
        check_repeatedly h1 later item_id product_name current_price in
      (h2, result :: results)
  end.

End History.

(** ** The report *)

Module Reporter.

(** The [price_calculation] section of the configuration. *)
Record price_calculation := PriceCalculation {
  low_price_multiplier : Float.float;
  high_price_multiplier : Float.float;
  low_price_threshold : Float.float
}.

(** [DEFAULT_CONFIG["price_calculation"]]: 1.5, 1.2 and 2.0 *)
Definition DEFAULT_CONFIG : price_calculation :=
  {| low_price_multiplier := Float.of_decimal false 15 (-1);
     high_price_multiplier := Float.of_decimal false 12 (-1);
     low_price_threshold := Float.of_decimal false 20 (-1) |}.

Definition CANNOT_CALCULATE : str := u "无法计算".

(** The body of the [try] of [calculate_suggested_price]. *)
Definition suggested_price (CONFIG : price_calculation) (current_price : str)
    : outcome str :=
  let price_text := before_first 40%N current_price in
  price_float ← Float.of_str price_text;
  let multiplier :=
    if Float.leb price_float (low_price_threshold CONFIG)
    then low_price_multiplier CONFIG
    else high_price_multiplier CONFIG in
  n ← Float.ceil (Float.mul (Float.mul price_float multiplier) (Float.of_Z 10));
  suggested ← Float.int_truediv n 10;
  Ok (Float.format1 false suggested).

Definition calculate_suggested_price (CONFIG : price_calculation)
    (current_price : str) : outcome str :=
  try_except (suggested_price CONFIG current_price)
             (fun _ => Ok CANNOT_CALCULATE).

End Reporter.

(** ** The monitor *)

Module Monitor.

(** The two fields of [urlparse(url)] the monitor reads. *)
Record parse_result := ParseResult {
  netloc : str;
  query : str
}.

(** An entry of [price_changes]. *)
Record change_event := ChangeEvent {
  name : str;
  id : str;
  old_price : option str;
  new_price : str;
  change_rate : str
}.

(** The monitor between two products: the history and the changes seen so
    far in this run. *)
Record state := State {
  price_history : gmap str History.entry;
  price_changes : list change_event
}.

Definition UNKNOWN : str := u "未知".

(** The percentage shown for a change, [change_rate_str]. *)
Definition change_rate_str (old_price : option str) (current_price : str) : str :=
  let computed :=
    old_price_value ← match old_price with
                      | Some t => Float.of_str t
                      | None => Raise TypeError
                      end;
    new_price_value ← Float.of_str current_price;
    ratio ← Float.truediv (Float.sub new_price_value old_price_value) old_price_value;
    let change_rate := Float.mul ratio (Float.of_Z 100) in
    Ok (if Float.truthy change_rate
        then Float.format1 true change_rate ++ u "%"
        else u "0%") in
  match computed with
  | Ok s => s
  | Raise _ => UNKNOWN
  end.

Section WithUrllib.

(** [urllib.parse.urlparse] and [urllib.parse.parse_qs], of the standard
    library. *)
Variable urlparse : str -> outcome parse_result.
Variable parse_qs : str -> gmap str (list str).

Definition extract_item_id (url : str) : outcome (option str) :=
  parsed ← urlparse url;
  if contains (u "taobao.com") (netloc parsed) then
    let query_params := parse_qs (query parsed) in
    match query_params !! u "id" with
    | Some (v :: _) => Ok (Some v)
    | Some [] => Raise IndexError
    | None => Ok None
    end
  else Ok None.

(** What [monitor_prices] does for one product of the list. [loaded] is
    the answer of [get_page], [pg] the page the browser then shows and
    [timestamp] the clock reading. Writing to the log file is left out. *)
Definition monitor_product (st : state) (product_name product_url : str)
    (loaded : bool) (pg : Scraper.page) (timestamp : str) : outcome state :=
  product_id ← extract_item_id product_url;
  if negb (truthy product_id) then Ok st
  else
    let product_id := default [] product_id in
    try_except
      (if negb loaded then Ok st
       else
         extracted ← Scraper.extract_price (Some pg) true;
         let '(current_price, success) := extracted in
         if negb success then Ok st
         else
           let '(h, result) :=
             History.check_price_change (price_history st) timestamp
               product_id product_name current_price in
           if History.is_new_item result then
             Ok {| price_history := h; price_changes := price_changes st |}
           else if History.has_changed result then
             let change_rate_str :=
               change_rate_str (History.old_price result) current_price in
             Ok {| price_history := h;
                   price_changes :=
                     price_changes st ++
                     [{| name := product_name; id := product_id;
                         old_price := History.old_price result;
                         new_price := current_price;
                         change_rate := change_rate_str |}] |}
           else Ok {| price_history := h; price_changes := price_changes st |})
      (fun _ => Ok st).

End WithUrllib.

End Monitor.

(** ** The standard library's URL functions, for examples

    [urlparse] and [parse_qs] of [urllib.parse] on the URLs the examples
    use: ASCII text that does not start with a blank or a control
    character, has no tab, carriage return or line feed, has not both
    brackets in its network location, and has no percent-escape and no [+]
    in its query. The properties of [extract_item_id] are proved for any
    pair of functions. *)

Module Urllib.

Import Monitor.

Definition scheme_char (c : N) : bool :=
  ((97 <=? c) && (c <=? 122) || (65 <=? c) && (c <=? 90)
   || (48 <=? c) && (c <=? 57) || (c =? 43) || (c =? 45) || (c =? 46))%N.

Definition alpha (c : N) : bool :=
  ((97 <=? c) && (c <=? 122) || (65 <=? c) && (c <=? 90))%N.

(** The text after the first [sep], when [sep] occurs. *)
Fixpoint after_first (sep : N) (s : str) : option str :=
  match s with
  | [] => None
  | c :: s' => if (c =? sep)%N then Some s' else after_first sep s'
  end.

(** The URL without its scheme. *)
Definition drop_scheme (url : str) : str :=
  match after_first 58%N url with
  | Some rest =>
      match before_first 58%N url with
      | (c :: _) as scheme =>
          if alpha c && forallb scheme_char scheme then rest else url
      | [] => url
      end
  | None => url
  end.

(** The text up to the first of [/], [?] and [#], and the rest. *)
Fixpoint split_netloc (s : str) : str * str :=
  match s with
  | [] => ([], [])
  | c :: s' =>
      if ((c =? 47) || (c =? 63) || (c =? 35))%N then ([], s)
      else let '(n, rest) := split_netloc s' in (c :: n, rest)
  end.

Definition urlparse (url : str) : outcome parse_result :=
  let '(netloc, rest) :=
    match drop_scheme url with
    | 47%N :: 47%N :: s => split_netloc s
    | s => ([], s)
    end in
  if xorb (existsb (N.eqb 91%N) netloc) (existsb (N.eqb 93%N) netloc)
  then Raise ValueError
  else
    Ok {| netloc := netloc;
          query := default [] (after_first 63%N (before_first 35%N rest)) |}.

(** [s.split(sep)] *)
Fixpoint split_on (sep : N) (s : str) : list str :=
  match s with
  | [] => [[]]
  | c :: s' =>
      if (c =? sep)%N then [] :: split_on sep s'
      else match split_on sep s' with
           | w :: ws => (c :: w) :: ws
           | [] => [[c]]
           end
  end.

Definition add_field (m : gmap str (list str)) (field : str) : gmap str (list str) :=
  match after_first 61%N field with
  | Some ((_ :: _) as value) =>
      let key := before_first 61%N field in
      <[key := default [] (m !! key) ++ [value]]> m
  | _ => m
  end.

Definition parse_qs (qs : str) : gmap str (list str) :=
  fold_left add_field (split_on 38%N qs) ∅.

(** The text after the last [sep], all of [s] when [sep] does not occur:
    the third part of [s.rpartition(sep)]. *)
Fixpoint after_last (sep : N) (s : str) : str :=
  match s with
  | [] => []
  | c :: s' =>
      if existsb (N.eqb sep) s' then after_last sep s'
      else if (c =? sep)%N then s' else s
  end.

(** The host of a network location, as [_hostinfo] takes it: what follows
    the last [@], up to the first [:]; with a [[] there, the text between it
    and the first []] after it. The [hostname] attribute of the library is
    this text in lower case. *)
Definition host (netloc : str) : str :=
  let hostinfo := after_last 64%N netloc in
  match after_first 91%N hostinfo with
  | Some bracketed => before_first 93%N bracketed
  | None => before_first 58%N hostinfo
  end.

End Urllib.

(** ** Data of the examples *)

Module Examples.

(** A page on which only the script probe finds a price. *)
Definition script_only_page (price : str) : Scraper.page :=
  {| Scraper.html := Ok ();
     Scraper.eles := fun _ => Ok [];
     Scraper.run_js := Ok (Some price);
     Scraper.body_text := Ok [] |}.

(** A page that shows the price 0 in the price element and 9.9 to the
    script probe. *)
Definition zero_price_page : Scraper.page :=
  {| Scraper.html := Ok ();
     Scraper.eles := fun sel =>
       match sel with
       | Scraper.SelTextAfterYen =>
           Ok [{| Scraper.text := u "0"; Scraper.parent := Some (u "￥0") |}]
       | _ => Ok []
       end;
     Scraper.run_js := Ok (Some (u "9.9"));
     Scraper.body_text := Ok (u "￥0 已售 9.9万") |}.

(** A page with the given visible text. *)
Definition text_page (page_text : str) : Scraper.page :=
  {| Scraper.html := Ok ();
     Scraper.eles := fun _ => Ok [];
     Scraper.run_js := Ok None;
     Scraper.body_text := Ok page_text |}.

(** A history with one entry. *)
Definition cup_history : gmap str History.entry :=
  {[ u "123" := {| History.name := u "cup"; History.price := u "10.0";
                   History.last_update := u "2024-05-01 08:00:00" |} ]}.

End Examples.

(** ** The specification's wording, for comparison *)

Module Spec.

(** The decimal that starts [s]: the match of [\d+(\.\d+)?] at its first
    character. *)
Definition leading_decimal (s : str) : option str :=
  match Re.run Re.decimal s with
  | m :: _ => fst m
  | [] => None
  end.

(** The suggested price in exact arithmetic, in tenths:
    [ceil(value * multiplier * 10)], the multiplier chosen by the
    threshold. *)
Definition suggested_tenths (threshold low high value : Q) : Z :=
  if Qle_bool value threshold then Qceiling (value * low * (10 # 1))
  else Qceiling (value * high * (10 # 1)).

(** Texts made of decimal digits, or of decimal digits, a point and
    decimal digits: what [\d+(\.\d+)?] matches. *)
Definition decimal_text (t : str) : Prop :=
  exists a rest,
    t = a ++ rest /\ a <> [] /\ Forall (fun c => isdigit c = true) a
    /\ (rest = []
        \/ exists b, rest = 46%N :: b /\ b <> []
                     /\ Forall (fun c => isdigit c = true) b).

(** The check [extract_price] makes on the value of a strategy comes to
    this: the value holds a decimal digit. *)
Definition validated (p : str) : bool := existsb isdigit p.

(** The value of a strategy's answer when it passes the check. *)
Definition passing (result : outcome (option str)) : option str :=
  match result with
  | Ok (Some p) => if validated p then Some p else None
  | _ => None
  end.

(** The validation as the specification words it: the value starts with a
    decimal whose float is finite and positive. *)
Definition validated_positive (p : str) : bool :=
  match leading_decimal p with
  | Some t =>
      match Float.of_str t with
      | Ok (S754_finite false _ _) => true
      | _ => false
      end
  | None => false
  end.

(** The result of [extract_price] as the specification words it: the value
    of the first strategy whose answer passes that validation. *)
Definition first_positive (results : list (outcome (option str))) : str * bool :=
  match Scraper.first_some
          (fun result =>
             match result with
             | Ok (Some p) => if validated_positive p then Some p else None
             | _ => None
             end)
          results with
  | Some p => (p, true)
  | None => (Scraper.NOT_FOUND, false)
  end.

(** The float of a match, and whether the match is kept by the filter of
    strategy 3. *)
Definition value (q : str) : Float.float :=
  match Float.of_str q with
  | Ok x => x
  | Raise _ => S754_nan
  end.

Definition survives (q : str) : bool :=
  Float.ltb (S754_zero false) (value q)
  && Float.ltb (value q) (Float.of_Z 100000).

(** The scan as the specification words it: the matches of all patterns
    are collected, those out of range dropped, the smallest returned. *)
Definition smallest_of_all (page_text : str) : outcome (option str) :=
  let matches :=
    List.flat_map (fun pattern => Re.findall pattern page_text)
                  Scraper.price_patterns in
  valid ← Scraper.valid_prices matches;
  sorted ← Scraper.sorted_by_float valid;
  Ok (List.head sorted).

(** A pattern whose group is the decimal. *)
Definition decimal_pattern (r : Re.regex) : Prop :=
  Re.captures r = true /\ forall t, Re.group_lang r t -> decimal_text t.

(** The same with the default configuration (threshold 2, multipliers 1.5
    and 1.2), written with one decimal. *)
Definition suggested_price (value : Q) : str :=
  Float.fixed1 (suggested_tenths (2 # 1) (3 # 2) (6 # 5) value).

End Spec.

(** ** Runs of the history *)

Module Observations.

Import History.

(** One call of [check_price_change]: the clock reading and the three
    arguments. *)
Record observation := Observation {
  at_time : str;
  item_id : str;
  product_name : str;
  current_price : str
}.

(** The dictionary after the calls for [observations], in their order. *)
Fixpoint record_all (price_history : gmap str entry) (observations : list observation)
    : gmap str entry :=
  match observations with
  | [] => price_history
  | o :: later =>
      record_all
        (fst (check_price_change price_history (at_time o) (item_id o)
                (product_name o) (current_price o)))
        later
  end.

(** The last observation of [id] in the list. *)
Fixpoint last_observation (id : str) (observations : list observation)
    : option observation :=
  match observations with
  | [] => None
  | o :: later =>
      match last_observation id later with
      | Some o' => Some o'
      | None => if str_eqb (item_id o) id then Some o else None
      end
  end.

End Observations.

(** ** Loading a page *)

Module Loader.

(** The loop of [get_page]: [page_get n] is what the [n]-th call of
    [self.page.get] does, [attempt] counts the calls made, [remaining] the
    turns of the loop left. The result is the returned flag, the number of
    calls made and the number of five-second waits before a retry. *)
Fixpoint attempts (page_get : nat -> outcome unit) (max_retries attempt remaining : nat)
    : bool * nat * nat :=
  match remaining with
  | O => (false, attempt, attempt)
  | S remaining' =>
      match page_get attempt with
      | Ok _ => (true, S attempt, attempt)
      | Raise _ =>
          if (attempt <? max_retries - 1)%nat
          then attempts page_get max_retries (S attempt) remaining'
          else (false, S attempt, attempt)
      end
  end.

(** [get_page]. [page_present] tells whether [self.page] is set and
    [init_ok] what [init_browser] answers when it is called. *)
Definition get_page (page_present init_ok : bool) (page_get : nat -> outcome unit)
    (max_retries : nat) : bool * nat * nat :=
  if negb page_present && negb init_ok then (false, O, O)
  else attempts page_get max_retries O max_retries.

End Loader.

(** ** A monitoring run *)

Module Run.

Import Monitor.

(** [str.strip()] *)
Fixpoint lstrip (s : str) : str :=
  match s with
  | c :: s' => if isspace c then lstrip s' else s
  | [] => []
  end.

Definition strip (s : str) : str := rev (lstrip (rev (lstrip s))).

(** A line of the product file: name and URL, split at the first comma. *)
Definition product_of_line (line : str) : option (str * str) :=
  match strip line with
  | [] => None
  | line =>
      match Urllib.after_first 44%N line with
      | Some url => Some (before_first 44%N line, url)
      | None => None
      end
  end.

Fixpoint products_of_lines (lines : list str) : list (str * str) :=
  match lines with
  | [] => []
  | line :: lines' =>
      match product_of_line line with
      | Some product => product :: products_of_lines lines'
      | None => products_of_lines lines'
      end
  end.

(** What the monitor meets when it turns to a product: the answer of
    [get_page], the page then shown and the clock reading. *)
Record visit := Visit {
  loaded : bool;
  shown : Scraper.page;
  clock : str
}.

(** The last event of [id] in the list of changes. *)
Fixpoint last_event (id : str) (events : list change_event) : option change_event :=
  match events with
  | [] => None
  | ev :: later =>
      match last_event id later with
      | Some ev' => Some ev'
      | None => if str_eqb (Monitor.id ev) id then Some ev else None
      end
  end.

(** The changes agree with the history: every change has an old price,
    which is another text than its new price, and the price stored for an
    id is the new price of the last change listed for it. *)
Definition consistent (st : state) : Prop :=
  Forall (fun ev => exists old, old_price ev = Some old /\ old <> new_price ev)
         (price_changes st)
  /\ forall id ev,
       last_event id (price_changes st) = Some ev ->
       exists e, price_history st !! id = Some e
                 /\ History.price e = new_price ev.

(** What a run leaves behind: the history written to the file, when it
    was written, and the changes handed to the reporter, when it was
    called. *)
Record outcome_of_run := OutcomeOfRun {
  saved : option (gmap str History.entry);
  reported : option (list change_event)
}.

Section WithUrllib.

Variable urlparse : str -> outcome parse_result.
Variable parse_qs : str -> gmap str (list str).

(** The loop of [monitor_prices] over the products, each with its visit. *)
Fixpoint monitor_products (st : state) (todo : list (str * str * visit))
    : outcome state :=
  match todo with
  | [] => Ok st
  | (product_name, product_url, v) :: todo' =>
      st' ← monitor_product urlparse parse_qs st product_name product_url
              (loaded v) (shown v) (clock v);
      monitor_products st' todo'
  end.

(** A product the monitor cannot handle: no id in its URL, a page that
    does not load, or no price on the page. *)
Definition passed_over (product_url : str) (v : visit) : Prop :=
  exists found,
    extract_item_id urlparse parse_qs product_url = Ok found
    /\ (truthy found = false
        \/ loaded v = false
        \/ (exists message, Scraper.extract_price (Some (shown v)) true
                            = Ok (message, false))
        \/ (exists e, Scraper.extract_price (Some (shown v)) true = Raise e)).

(** [monitor_prices]. [browser_ok] is the answer of [init_browser],
    [product_file] the lines read from the newest product file (or the
    exception of looking for it and reading it), [price_history] the
    history in memory, [visits] the visit met at each position of the
    product list. Writing the log and the history file is taken to
    succeed. *)
Definition monitor_prices (browser_ok : bool) (product_file : outcome (list str))
    (price_history : gmap str History.entry) (visits : nat -> visit)
    (wx_push : bool) (spt : option str) : outcome_of_run :=
  if negb browser_ok then {| saved := None; reported := None |}
  else
    let run :=
      lines ← product_file;
      let products := products_of_lines lines in
      monitor_products
        {| Monitor.price_history := price_history; price_changes := [] |}
        (combine products (List.map visits (seq 0 (length products)))) in
    match run with
    | Ok st =>
        {| saved := Some (Monitor.price_history st);
           reported := if wx_push && truthy spt
                       then Some (price_changes st) else None |}
    | Raise _ => {| saved := None; reported := None |}
    end.

End WithUrllib.

End Run.

(** ** From the product cards to the product file and back *)

Module Extractor.

(** The text after the first occurrence of [sep]. *)
Fixpoint after_text (sep s : str) : option str :=
  match strip_prefix sep s with
  | Some rest => Some rest
  | None =>
      match s with
      | [] => None
      | _ :: s' => after_text sep s'
      end
  end.

(** The text before the first occurrence of [sep], or all of [s]. *)
Fixpoint before_text (sep s : str) : str :=
  match strip_prefix sep s with
  | Some _ => []
  | None =>
      match s with
      | [] => []
      | c :: s' => c :: before_text sep s'
      end
  end.

(** [item_url.split("id=")[1]], cut at the first [&]: the id, when "id="
    is in the URL. *)
Definition item_id_of (item_url : str) : option str :=
  match after_text (u "id=") item_url with
  | Some rest => Some (before_first 38%N (before_text (u "id=") rest))
  | None => None
  end.

Definition ITEM_URL : str := u "https://item.taobao.com/item.htm?id=".

Definition simplified_url (item_url : str) : str :=
  match item_id_of item_url with
  | Some item_id => ITEM_URL ++ item_id
  | None => item_url
  end.

(** The title: the stripped text of the first candidate that was found
    and has text left after stripping, or "". *)
Definition title_of (candidates : list (option str)) : str :=
  default []
    (Scraper.first_some
       (fun candidate =>
          match candidate with
          | Some text =>
              match Run.strip text with
              | [] => None
              | title => Some title
              end
          | None => None
          end)
       candidates).

(** [str(item_id)] *)
Definition str_of_id (item_id : option str) : str :=
  match item_id with
  | Some s => s
  | None => u "None"
  end.

(** What [extract_product_info] appends to [results] for a card, from the
    [href] of its product link ("" when it has none) and the texts of the
    title candidates. *)
Definition result_of_card (item_url : str) (candidates : list (option str))
    : option str :=
  match item_url with
  | [] => None
  | _ =>
      let simplified := simplified_url item_url in
      let title := title_of candidates in
      match simplified with
      | [] => None
      | _ =>
          match title with
          | [] =>
              Some ((u "商品_" ++ str_of_id (item_id_of item_url))
                      ++ u "," ++ simplified)
          | _ => Some (title ++ u "," ++ simplified)
          end
      end
  end.

(** The text written to the product file: every result and a newline. *)
Fixpoint file_text (results : list str) : str :=
  match results with
  | [] => []
  | result :: results' => result ++ 10%N :: file_text results'
  end.

(** Reading in text mode: carriage return, alone or before a newline,
    reads as a newline. *)
Fixpoint universal_newlines (s : str) : str :=
  match s with
  | [] => []
  | c :: s' =>
      if (c =? 13)%N then
        10%N :: match s' with
                | d :: s'' =>
                    if (d =? 10)%N then universal_newlines s''
                    else universal_newlines s'
                | [] => []
                end
      else c :: universal_newlines s'
  end.

(** The lines a file object yields, each with its newline. *)
Fixpoint lines_of (s : str) : list str :=
  match s with
  | [] => []
  | c :: s' =>
      if (c =? 10)%N then [c] :: lines_of s'
      else match lines_of s' with
           | line :: lines => (c :: line) :: lines
           | [] => [[c]]
           end
  end.

Definition read_lines (text : str) : list str := lines_of (universal_newlines text).

Definition no_break (s : str) : bool :=
  forallb (fun c => negb ((c =? 10) || (c =? 13))%N) s.

(** A title and a URL that a line of the file can carry: the title starts
    with a character that is no space and has no comma, the URL ends with
    a character that is no space, neither has a line break. *)
Definition tidy (product : str * str) : bool :=
  negb (isspace (hd 32%N (fst product)))
  && forallb (fun c => negb (c =? 44)%N) (fst product)
  && no_break (fst product)
  && no_break (snd product)
  && negb (isspace (List.last (snd product) 32%N)).

Definition line_of (product : str * str) : str :=
  fst product ++ u "," ++ snd product.

End Extractor.

(** ** The name of the screenshot file *)

Module Screenshot.

(** The characters that [re.sub] takes out of the product name:
    backslash, slash, star, question mark, colon, double quote, angle
    brackets and bar. *)
Definition forbidden (c : N) : bool :=
  ((c =? 92) || (c =? 47) || (c =? 42) || (c =? 63) || (c =? 58)
   || (c =? 34) || (c =? 60) || (c =? 62) || (c =? 124))%N.

(** The product name without these characters, cut to 30 characters. *)
Definition safe_name (product_name : str) : str :=
  let cleaned := List.filter (fun c => negb (forbidden c)) product_name in
  if (30 <? length cleaned)%nat then List.firstn 30 cleaned else cleaned.

(** [sep.join(parts)] *)
Fixpoint join (sep : str) (parts : list str) : str :=
  match parts with
  | [] => []
  | [part] => part
  | part :: parts' => part ++ sep ++ join sep parts'
  end.

(** The file name of the screenshot [extract_price] takes. *)
Definition screenshot_name (product_name product_id : option str)
    (timestamp : str) : str :=
  let filename_parts :=
    (if truthy product_name then [safe_name (default [] product_name)] else [])
    ++ (if truthy product_id then [default [] product_id] else [])
    ++ [timestamp] in
  match filename_parts with
  | [] => u "item_" ++ timestamp ++ u ".png"
  | _ => join (u "_") filename_parts ++ u ".png"
  end.

Definition allowed (s : str) : bool := forallb (fun c => negb (forbidden c)) s.

End Screenshot.

(** ** Data of the further examples *)

Module MoreExamples.

Import Monitor Run.

(** A visit on which the page loads and the script probe finds [price]. *)
Definition visit_with_price (price at_clock : str) : visit :=
  {| loaded := true;
     shown := Examples.script_only_page price;
     clock := at_clock |}.

(** The cup at 12.0, found on the second of May. *)
Definition cup_product : str * str * visit :=
  (u "cup", u "https://item.taobao.com/item.htm?id=123",
   visit_with_price (u "12.0") (u "2024-05-02 08:00:00")).

(** A product of another shop. *)
Definition foreign_product : str * str * visit :=
  (u "mug", u "https://shop.example.com/item.htm?id=77",
   visit_with_price (u "5.0") (u "2024-05-02 08:00:05")).

Definition start_of_run : state :=
  {| price_history := Examples.cup_history; price_changes := [] |}.

Definition cup_event : change_event :=
  {| name := u "cup"; id := u "123"; old_price := Some (u "10.0");
     new_price := u "12.0"; change_rate := u "+20.0%" |}.

Definition end_of_run : state :=
  {| price_history :=
       <[u "123" := {| History.name := u "cup"; History.price := u "12.0";
                       History.last_update := u "2024-05-02 08:00:00" |}]>
         Examples.cup_history;
     price_changes := [cup_event] |}.

End MoreExamples.

(** * Properties *)

(** ** The matcher *)

Module ReFacts.

Import Re.

Lemma strip_prefix_app (l s rest : str) :
  strip_prefix l s = Some rest -> s = l ++ rest.
Proof.
  revert s. induction l as [| c l IH]; intros s H; simpl in *.
  - congruence.
  - destruct s as [| d s]; [discriminate |].
    destruct (c =? d)%N eqn:E; [| discriminate].
    apply N.eqb_eq in E. subst d. rewrite (IH s H). reflexivity.
Qed.

Lemma rep_rests_sound (p : N -> bool) (greedy : bool) (s : str) :
  forall lo hi rest,
    In rest (rep_rests p lo hi greedy s) ->
    exists w, s = w ++ rest
              /\ Forall (fun c => p c = true) w
              /\ (lo <= length w)%nat
              /\ forall h, hi = Some h -> (length w <= h)%nat.
Proof.
  induction s as [| c s IH]; intros lo hi rest Hin.
  - simpl in Hin.
    assert (Hstop : In rest (match lo with O => [[]] | S _ => [] end)).
    { destruct greedy; simpl in Hin; [exact Hin |].
      rewrite app_nil_r in Hin. exact Hin. }
    destruct lo; simpl in Hstop; [| contradiction].
    destruct Hstop as [<- | []].
    exists []. repeat split; [constructor | simpl; lia | intros; simpl; lia].
  - simpl in Hin.
    set (stop := match lo with O => [c :: s] | S _ => [] end) in Hin.
    set (more := match hi with
                 | Some O => []
                 | _ => if p c then rep_rests p (Nat.pred lo) (Nat.pred <$> hi) greedy s
                        else []
                 end) in Hin.
    assert (Hcases : In rest stop \/ In rest more).
    { destruct greedy; apply in_app_or in Hin; tauto. }
    destruct Hcases as [Hs | Hm].
    + subst stop. destruct lo; [| contradiction].
      destruct Hs as [<- | []].
      exists []. repeat split; [constructor | simpl; lia | intros; simpl; lia].
    + subst more.
      assert (Hp : p c = true /\ hi <> Some O
                   /\ In rest (rep_rests p (Nat.pred lo) (Nat.pred <$> hi) greedy s)).
      { destruct hi as [[| h] |]; try contradiction;
          destruct (p c); try contradiction; repeat split; auto; discriminate. }
      destruct Hp as (Hpc & Hhi & Hrec).
      destruct (IH _ _ _ Hrec) as (w & -> & Hall & Hlo & Hup).
      exists (c :: w). repeat split.
      * constructor; assumption.
      * simpl. lia.
      * intros h ->. simpl.
        destruct h as [| h]; [congruence |].
        specialize (Hup h eq_refl). lia.
Qed.

(** Every answer of [run] splits the text into a word of the pattern and
    the rest, and the group it reports is a word of the group. *)
Lemma run_sound (r : regex) :
  forall s g rest,
    In (g, rest) (run r s) ->
    exists w, s = w ++ rest /\ lang r w
              /\ forall c, g = Some c -> group_lang r c.
Proof.
  induction r as [p | l | r1 IH1 r2 IH2 | r1 IH1 r2 IH2 | r1 IH1
                  | p lo hi greedy | r1 IH1];
    intros s g rest Hin; simpl in Hin.
  - destruct s as [| c s]; [contradiction |].
    destruct (p c) eqn:Hp; [| contradiction].
    destruct Hin as [[= <- <-] | []].
    exists [c]. repeat split; simpl; eauto. discriminate.
  - destruct (strip_prefix l s) as [s' |] eqn:Hs; [| contradiction].
    destruct Hin as [[= <- <-] | []].
    exists l. repeat split; simpl; auto using strip_prefix_app. discriminate.
  - apply in_flat_map in Hin. destruct Hin as ([g1 s1] & H1 & Hin).
    apply in_map_iff in Hin. destruct Hin as ([g2 s2] & [= <- <-] & H2).
    simpl in H2.
    destruct (IH1 _ _ _ H1) as (w1 & -> & L1 & G1).
    destruct (IH2 _ _ _ H2) as (w2 & -> & L2 & G2).
    exists (w1 ++ w2). split; [apply app_assoc |].
    split; [simpl; eauto |].
    intros c Hc. simpl in *. destruct g2 as [c2 |]; simpl in Hc.
    + right. apply G2. assumption.
    + left. apply G1. assumption.
  - apply in_app_or in Hin. destruct Hin as [H | H].
    + destruct (IH1 _ _ _ H) as (w & -> & L & G). exists w. simpl. eauto 6.
    + destruct (IH2 _ _ _ H) as (w & -> & L & G). exists w. simpl. eauto 6.
  - apply in_app_or in Hin. destruct Hin as [H | [[= <- <-] | []]].
    + destruct (IH1 _ _ _ H) as (w & -> & L & G). exists w. simpl. eauto 6.
    + exists []. simpl. repeat split; auto. discriminate.
  - apply in_map_iff in Hin. destruct Hin as (rest' & [= <- <-] & H).
    destruct (rep_rests_sound _ _ _ _ _ _ H) as (w & -> & Hw).
    exists w. simpl. repeat split; try apply Hw. discriminate.
  - apply in_map_iff in Hin. destruct Hin as ([g1 s1] & [= <- <-] & H).
    simpl. destruct (IH1 _ _ _ H) as (w & -> & L & G).
    exists w. repeat split; auto.
    intros c [= <-]. simpl.
    rewrite length_app, Nat.add_sub, firstn_app, Nat.sub_diag, firstn_all.
    simpl. rewrite app_nil_r. assumption.
Qed.

Lemma run_captures (r : regex) :
  captures r = true ->
  forall s g rest, In (g, rest) (run r s) -> g <> None.
Proof.
  induction r as [p | l | r1 IH1 r2 IH2 | r1 IH1 r2 IH2 | r1 IH1
                  | p lo hi greedy | r1 IH1];
    simpl; intros Hc s g rest Hin; try discriminate.
  - apply in_flat_map in Hin. destruct Hin as ([g1 s1] & H1 & Hin).
    apply in_map_iff in Hin. destruct Hin as ([g2 s2] & [= <- <-] & H2).
    simpl in *. destruct g2 as [c2 |]; simpl; [discriminate |].
    apply orb_true_iff in Hc. destruct Hc as [Hc | Hc].
    + apply (IH1 Hc _ _ _ H1).
    + exfalso. apply (IH2 Hc _ _ _ H2). reflexivity.
  - apply andb_true_iff in Hc. destruct Hc as [Hc1 Hc2].
    apply in_app_or in Hin. destruct Hin as [H | H]; eauto.
  - apply in_map_iff in Hin. destruct Hin as (m & [= <- <-] & H). discriminate.
Qed.

Lemma search_found (r : regex) (s : str) (g : option str) :
  search r s = Some g ->
  exists s' rest, In (g, rest) (run r s').
Proof.
  induction s as [| c s IH]; simpl; intros H.
  - destruct (run r []) as [| m ms] eqn:E; [discriminate |].
    injection H as <-. exists [], (snd m). rewrite E.
    left. destruct m; reflexivity.
  - destruct (run r (c :: s)) as [| m ms] eqn:E.
    + apply IH. assumption.
    + injection H as <-. exists (c :: s), (snd m). rewrite E.
      left. destruct m; reflexivity.
Qed.

Lemma findall_from_found (r : regex) (s : str) :
  forall skip t,
    In t (findall_from r skip s) ->
    exists s' g rest, In (g, rest) (run r s') /\ t = default [] g.
Proof.
  induction s as [| c s IH]; intros skip t Hin.
  - destruct skip; simpl in Hin; [| contradiction].
    destruct (run r []) as [| m ms] eqn:E; [contradiction |].
    destruct Hin as [<- | []].
    exists [], (fst m), (snd m). rewrite E. split; [| reflexivity].
    left. destruct m; reflexivity.
  - destruct skip; simpl in Hin.
    + destruct (run r (c :: s)) as [| m ms] eqn:E.
      * apply (IH _ _ Hin).
      * destruct Hin as [<- | Hin].
        -- exists (c :: s), (fst m), (snd m). rewrite E. split; [| reflexivity].
           left. destruct m; reflexivity.
        -- apply (IH _ _ Hin).
    + apply (IH _ _ Hin).
Qed.

(** What [findall] lists are groups of matches. *)
Lemma findall_group (r : regex) (s t : str) :
  captures r = true ->
  In t (findall r s) -> group_lang r t.
Proof.
  intros Hc Hin. unfold findall in Hin.
  destruct (findall_from_found r s _ _ Hin) as (s' & g & rest & Hrun & ->).
  destruct (run_sound r _ _ _ Hrun) as (w & _ & _ & Hg).
  destruct g as [c |].
  - apply Hg. reflexivity.
  - exfalso. apply (run_captures r Hc _ _ _ Hrun). reflexivity.
Qed.

Lemma search_group (r : regex) (s : str) (g : option str) :
  captures r = true ->
  search r s = Some g ->
  exists t, g = Some t /\ group_lang r t.
Proof.
  intros Hc H. destruct (search_found r s g H) as (s' & rest & Hrun).
  destruct (run_sound r _ _ _ Hrun) as (w & _ & _ & Hg).
  destruct g as [c |].
  - exists c. auto.
  - exfalso. apply (run_captures r Hc _ _ _ Hrun). reflexivity.
Qed.

Lemma plus_digits (w : str) :
  lang (plus isdigit) w -> w <> [] /\ Forall (fun c => isdigit c = true) w.
Proof.
  simpl. intros (Hall & Hlen & _). split; [| assumption].
  destruct w; simpl in Hlen; [lia | discriminate].
Qed.

(** The group of [decimal] holds a decimal text. *)
Lemma decimal_group (t : str) : group_lang decimal t -> Spec.decimal_text t.
Proof.
  unfold decimal. cbn [group_lang lang].
  intros (a & rest & -> & Ha & Hrest).
  apply plus_digits in Ha. destruct Ha as [Hne Hall].
  exists a, rest. repeat split; auto.
  destruct Hrest as [(p & b & -> & Hp & Hb) | ->]; [| auto].
  right. apply plus_digits in Hb. cbv in Hp. subst p.
  exists b. simpl. tauto.
Qed.

End ReFacts.

(** ** [float] of a decimal text *)

Module FloatFacts.

Import Float.

Lemma digit_in_spec (zs : list N) (c d : N) :
  digit_in zs c = Some d ->
  exists z, In z zs /\ (z <= c < z + 10)%N /\ d = (c - z)%N.
Proof.
  induction zs as [| z zs IH]; simpl; [discriminate |].
  destruct ((z <=? c) && (c <? z + 10))%N eqn:E.
  - intros [= <-]. apply andb_true_iff in E. destruct E as [E1 E2].
    apply N.leb_le in E1. apply N.ltb_lt in E2. exists z. auto.
  - intros H. destruct (IH H) as (z' & Hin & Hr). exists z'. auto.
Qed.

(** The only digits below 127 are the ASCII digits, and no digit from 127
    on is a space. *)
Lemma nd_zeros_checked :
  forallb (fun z => ((z =? 48) || (127 <=? z))%N
                    && forallb (fun k => negb (isspace (z + k)))
                               [0; 1; 2; 3; 4; 5; 6; 7; 8; 9]%N)
          nd_zeros = true.
Proof. vm_compute. reflexivity. Qed.

Lemma digit_cases (c : N) :
  isdigit c = true ->
  exists d, digit_value c = Some d /\ (d < 10)%N
            /\ ((c < 127)%N -> c = (48 + d)%N)
            /\ isspace c = false.
Proof.
  unfold isdigit. destruct (digit_value c) as [d |] eqn:E; [| discriminate].
  intros _. unfold digit_value in E.
  destruct (digit_in_spec _ _ _ E) as (z & Hin & Hr & ->).
  pose proof nd_zeros_checked as Hall.
  rewrite forallb_forall in Hall. specialize (Hall z Hin).
  apply andb_true_iff in Hall. destruct Hall as [Hz Hsp].
  exists (c - z)%N. split; [reflexivity |]. split; [lia |].
  apply orb_true_iff in Hz. rewrite N.eqb_eq, N.leb_le in Hz.
  split; [lia |].
  rewrite forallb_forall in Hsp.
  assert (Hk : In (c - z)%N [0; 1; 2; 3; 4; 5; 6; 7; 8; 9]%N).
  { assert (Hlt : (c - z < 10)%N) by lia. revert Hlt.
    generalize (c - z)%N. intros k Hk. simpl.
    destruct k as [| p]; [auto |].
    do 9 (destruct p as [p | p |]; try lia; auto 12). }
  specialize (Hsp _ Hk). apply negb_true_iff in Hsp.
  replace (z + (c - z))%N with c in Hsp by lia. exact Hsp.
Qed.

Lemma ascii_of_digit (c : N) :
  isdigit c = true -> ascii_digit (ascii_of c) = true.
Proof.
  intros H. destruct (digit_cases c H) as (d & Hd & Hlt & Hlow & _).
  unfold ascii_of, ascii_digit. rewrite Hd.
  destruct (c <? 127)%N eqn:E.
  - apply N.ltb_lt in E. rewrite (Hlow E).
    apply andb_true_iff. rewrite !N.leb_le. lia.
  - apply andb_true_iff. rewrite !N.leb_le. lia.
Qed.

Lemma to_ascii_app_digits (a rest : str) :
  Forall (fun c => isdigit c = true) a ->
  to_ascii (a ++ rest) = List.map ascii_of a ++ to_ascii rest.
Proof.
  induction 1 as [| c a Hc Ha IH]; simpl; [reflexivity |].
  destruct (digit_cases c Hc) as (d & Hd & _ & _ & Hsp).
  unfold ascii_of at 1. rewrite Hsp, Hd, IH.
  destruct (c <? 127)%N; reflexivity.
Qed.

Lemma map_digits (a : str) :
  Forall (fun c => isdigit c = true) a ->
  Forall (fun c => ascii_digit c = true) (List.map ascii_of a).
Proof.
  induction 1; simpl; constructor; auto using ascii_of_digit.
Qed.

Lemma to_ascii_decimal (t : str) :
  Spec.decimal_text t -> ascii_decimal (to_ascii t).
Proof.
  intros (a & rest & -> & Hne & Ha & Hrest).
  rewrite (to_ascii_app_digits a rest Ha).
  exists (List.map ascii_of a).
  destruct Hrest as [-> | (b & -> & Hbne & Hb)].
  - exists []. simpl. repeat split; auto using map_digits.
    destruct a; [congruence | discriminate].
  - exists (46%N :: List.map ascii_of b).
    assert (Hb' := to_ascii_app_digits b [] Hb).
    rewrite app_nil_r in Hb'. simpl in Hb'. rewrite app_nil_r in Hb'.
    simpl. rewrite Hb'.
    repeat split; auto using map_digits.
    + destruct a; [congruence | discriminate].
    + right. exists (List.map ascii_of b). repeat split; auto using map_digits.
      destruct b; [congruence | discriminate].
Qed.

Lemma ascii_digit_range (c : N) : ascii_digit c = true -> (48 <= c <= 57)%N.
Proof.
  unfold ascii_digit. rewrite andb_true_iff, !N.leb_le. tauto.
Qed.

Lemma ascii_digit_plain (c : N) : ascii_digit c = true -> plain c.
Proof.
  intros H. apply ascii_digit_range in H. unfold plain, ascii_space.
  split.
  - apply orb_false_iff. split.
    + apply andb_false_iff. right. apply N.leb_gt. lia.
    + apply N.eqb_neq. lia.
  - apply N.eqb_neq. lia.
Qed.

Lemma ascii_decimal_plain (t : str) : ascii_decimal t -> Forall plain t.
Proof.
  intros (a & rest & -> & _ & Ha & Hrest).
  apply Forall_app. split.
  - apply (List.Forall_impl _ ascii_digit_plain Ha).
  - destruct Hrest as [-> | (b & -> & _ & Hb)]; constructor.
    + split; reflexivity.
    + apply (List.Forall_impl _ ascii_digit_plain Hb).
Qed.

Lemma lstrip_plain (s : str) : Forall plain s -> lstrip s = s.
Proof.
  destruct 1 as [| c s [Hc _] Hs]; simpl; [reflexivity |].
  rewrite Hc. reflexivity.
Qed.

Lemma strip_plain (s : str) : Forall plain s -> strip s = s.
Proof.
  intros H. unfold strip. rewrite (lstrip_plain s H).
  rewrite lstrip_plain by (apply Forall_rev; assumption).
  apply rev_involutive.
Qed.

Lemma underscores_ok_plain (s : str) :
  Forall plain s ->
  forall prev, (prev =? 95)%N = false -> underscores_ok prev s = true.
Proof.
  induction 1 as [| c s [_ Hc] Hs IH]; intros prev Hprev; simpl.
  - rewrite Hprev. reflexivity.
  - rewrite Hc, Hprev. simpl. apply IH. assumption.
Qed.

Lemma drop_underscores_plain (s : str) :
  Forall plain s -> drop_underscores s = s.
Proof.
  unfold drop_underscores.
  induction 1 as [| c s [_ Hc] Hs IH]; simpl; [reflexivity |].
  rewrite Hc. simpl. rewrite IH. reflexivity.
Qed.

Lemma span_digits_app (a rest : str) :
  Forall (fun c => ascii_digit c = true) a ->
  (rest = [] \/ exists c rest', rest = c :: rest' /\ ascii_digit c = false) ->
  span_digits (a ++ rest) = (List.map (fun c => (c - 48)%N) a, rest).
Proof.
  intros Ha Hrest. induction Ha as [| c a Hc Ha IH]; simpl.
  - destruct Hrest as [-> | (c & rest' & -> & Hc)]; simpl; [reflexivity |].
    rewrite Hc. reflexivity.
  - rewrite Hc, IH. reflexivity.
Qed.

Lemma lower_digit (c : N) : ascii_digit c = true -> lower c = c.
Proof.
  intros Hc. apply ascii_digit_range in Hc. unfold lower.
  replace ((65 <=? c) && (c <=? 90))%N with false; [reflexivity |].
  symmetry. apply andb_false_iff. left. apply N.leb_gt. lia.
Qed.

Lemma not_word (c w0 : N) (s w : str) :
  ascii_digit c = true -> (57 < w0)%N ->
  str_eqb (List.map lower (c :: s)) (w0 :: w) = false.
Proof.
  intros Hc Hw. unfold str_eqb. apply bool_decide_eq_false. simpl.
  rewrite (lower_digit c Hc). apply ascii_digit_range in Hc.
  intros [= -> _]. lia.
Qed.

(** [float] accepts an ASCII decimal as it stands: the digits before and
    after the point are the mantissa, the number of digits after the point
    the negated exponent. *)
Lemma parse_number_decimal (t : str) :
  ascii_decimal t ->
  exists m k, parse_number t = Some (of_decimal false m k).
Proof.
  intros (a & rest & -> & Hne & Ha & Hrest).
  destruct a as [| c a]; [congruence |].
  pose proof (Forall_inv Ha) as Hc.
  unfold parse_number.
  assert (Hsign : take_sign ((c :: a) ++ rest) = (false, (c :: a) ++ rest)).
  { apply ascii_digit_range in Hc. simpl.
    destruct c as [| p]; [lia |].
    do 6 (destruct p as [p | p |]; try reflexivity); lia. }
  rewrite Hsign.
  change (u "inf") with (105%N :: [110; 102]%N).
  change (u "infinity") with (105%N :: [110; 102; 105; 110; 105; 116; 121]%N).
  change (u "nan") with (110%N :: [97; 110]%N).
  change ((c :: a) ++ rest) with (c :: (a ++ rest)) at 1 2 3.
  rewrite !(not_word c _ (a ++ rest) _ Hc) by lia.
  cbn [orb].
  destruct Hrest as [-> | (b & -> & Hbne & Hb)].
  - rewrite (span_digits_app (c :: a) [] Ha) by auto.
    rewrite app_nil_r. cbn [List.map length parse_exponent].
    eexists _, _. reflexivity.
  - rewrite (span_digits_app (c :: a) (46%N :: b) Ha)
      by (right; exists 46%N, b; split; reflexivity).
    pose proof (span_digits_app b [] Hb (or_introl eq_refl)) as Hsb.
    rewrite app_nil_r in Hsb. rewrite Hsb.
    cbn [List.map app parse_exponent].
    eexists _, _. reflexivity.
Qed.

Lemma of_str_decimal (t : str) :
  Spec.decimal_text t ->
  exists m k, of_str t = Ok (of_decimal false m k).
Proof.
  intros H. apply to_ascii_decimal in H.
  pose proof (ascii_decimal_plain _ H) as Hp.
  unfold of_str. rewrite (strip_plain _ Hp).
  rewrite (underscores_ok_plain _ Hp) by reflexivity.
  rewrite (drop_underscores_plain _ Hp).
  destruct (parse_number_decimal _ H) as (m & k & ->).
  eauto.
Qed.

End FloatFacts.

(** ** The strategy chain *)

Module ScraperFacts.

Import Re Scraper.

Lemma rep_rests_greedy_nonempty (p : N -> bool) (s : str) :
  forall hi, rep_rests p 0 hi true s <> [].
Proof.
  intros hi. destruct s as [| c s]; simpl; [discriminate |].
  intros H. apply app_eq_nil in H. destruct H as [_ H]. discriminate.
Qed.

Lemma run_cat_nonempty (r1 r2 : regex) (s : str) (m1 : option str * str) :
  In m1 (run r1 s) -> run r2 (snd m1) <> [] -> run (Cat r1 r2) s <> [].
Proof.
  intros Hin Hne H.
  destruct (run r2 (snd m1)) as [| m2 ms] eqn:E; [congruence |].
  assert (Hin2 : In (later_group (fst m1) (fst m2), snd m2) (run (Cat r1 r2) s)).
  { cbn [run]. apply in_flat_map. exists m1. split; [assumption |].
    rewrite E. left. reflexivity. }
  rewrite H in Hin2. contradiction.
Qed.

Lemma run_opt_nonempty (r : regex) (s : str) : run (Opt r) s <> [].
Proof.
  cbn [run]. intros H. apply app_eq_nil in H. destruct H as [_ H]. discriminate.
Qed.

Lemma run_grp_nonempty (r : regex) (s : str) :
  run r s <> [] -> run (Grp r) s <> [].
Proof.
  cbn [run]. intros Hne H. apply map_eq_nil in H. contradiction.
Qed.

Lemma run_decimal_at_digit (c : N) (s : str) :
  isdigit c = true -> run decimal (c :: s) <> [].
Proof.
  intros Hc.
  pose proof (rep_rests_greedy_nonempty isdigit s None) as Hne.
  destruct (rep_rests isdigit 0 None true s) as [| r rs] eqn:E; [congruence |].
  assert (Hin : In (None, r) (run (plus isdigit) (c :: s))).
  { unfold plus. simpl. rewrite Hc. simpl in E. rewrite E. left. reflexivity. }
  unfold decimal. apply run_grp_nonempty.
  apply (run_cat_nonempty _ _ _ _ Hin). apply run_opt_nonempty.
Qed.

Lemma run_decimal_digit_first (s : str) (m : option str * str) (ms : list (option str * str)) :
  run decimal s = m :: ms -> exists c s', s = c :: s' /\ isdigit c = true.
Proof.
  intros H.
  assert (Hin : In (fst m, snd m) (run decimal s))
    by (rewrite H; left; destruct m; reflexivity).
  destruct (ReFacts.run_sound _ _ _ _ Hin) as (w & -> & Hl & _).
  unfold decimal in Hl. cbn [lang] in Hl.
  destruct Hl as (a & rest & -> & Ha & _).
  apply ReFacts.plus_digits in Ha. destruct Ha as [Hne Hall].
  destruct a as [| c a]; [congruence |].
  exists c, ((a ++ rest) ++ snd m). split.
  - simpl. rewrite <- !app_assoc. reflexivity.
  - apply (Forall_inv Hall).
Qed.

Lemma search_cons (r : regex) (c : N) (s : str) :
  search r (c :: s) =
    match run r (c :: s) with
    | m :: _ => Some (fst m)
    | [] => search r s
    end.
Proof. reflexivity. Qed.

(** [re.search] finds a decimal exactly in the texts that hold a digit. *)
Lemma search_decimal_validated (p : str) :
  Spec.validated p = match search decimal p with Some _ => true | None => false end.
Proof.
  unfold Spec.validated. induction p as [| c p IH].
  - reflexivity.
  - cbn [existsb]. rewrite search_cons.
    destruct (run decimal (c :: p)) as [| m ms] eqn:E.
    + destruct (isdigit c) eqn:Hc.
      * exfalso. apply (run_decimal_at_digit c p Hc E).
      * cbn [orb]. apply IH.
    + destruct (run_decimal_digit_first _ _ _ E) as (c' & s' & [= <- <-] & Hc).
      rewrite Hc. reflexivity.
Qed.

(** The float of the decimal that [re.search] finds is never refused. *)
Lemma search_decimal_float (p : str) (g : option str) :
  search decimal p = Some g ->
  exists t x, g = Some t /\ Float.of_str t = Ok x.
Proof.
  intros H.
  destruct (ReFacts.search_group decimal p g eq_refl H) as (t & -> & Ht).
  apply ReFacts.decimal_group in Ht.
  destruct (FloatFacts.of_str_decimal t Ht) as (m & k & Hf).
  eauto.
Qed.

(** One turn of the loop, by the answer of the strategy. *)
Lemma attempt_spec (result : outcome (option str)) (price : option str) :
  truthy price = false ->
  match Spec.passing result with
  | Some v => attempt result price = (Some v, true)
  | None => exists price', attempt result price = (price', false)
                           /\ truthy price' = false
  end.
Proof.
  intros Hp. destruct result as [[p |] | e]; simpl.
  - rewrite (search_decimal_validated p).
    destruct p as [| c p]; simpl truthy; cbv iota.
    + simpl. eauto.
    + cbn [default]. destruct (search decimal (c :: p)) as [g |] eqn:E.
      * destruct (search_decimal_float _ _ E) as (t & x & -> & ->).
        reflexivity.
      * eauto.
  - eauto.
  - eauto.
Qed.

Lemma try_strategies_spec (pg : page) (strategies : list (page -> outcome (option str))) :
  forall price,
    truthy price = false ->
    match first_some Spec.passing (List.map (fun strategy => strategy pg) strategies) with
    | Some v => try_strategies pg strategies price = Some v /\ truthy (Some v) = true
    | None => truthy (try_strategies pg strategies price) = false
    end.
Proof.
  induction strategies as [| strategy strategies IH]; intros price Hp; simpl.
  - assumption.
  - pose proof (attempt_spec (strategy pg) price Hp) as Ha.
    destruct (Spec.passing (strategy pg)) as [v |] eqn:Ev.
    + rewrite Ha. split; [reflexivity |].
      destruct (strategy pg) as [[p |] | e]; simpl in Ev; try discriminate.
      destruct (Spec.validated p) eqn:Hv; [| discriminate].
      injection Ev as <-. destruct p; [discriminate | reflexivity].
    + destruct Ha as (price' & -> & Hp'). apply IH. assumption.
Qed.

Lemma extract_price_spec (pg : page) (save_debug_info : bool) :
  (save_debug_info = true -> html pg = Ok ()) ->
  extract_price (Some pg) save_debug_info =
    Ok (match first_some Spec.passing
                [_extract_price_strategy_1 pg; _extract_price_strategy_2 pg;
                 _extract_price_strategy_3 pg] with
        | Some v => (v, true)
        | None => (NOT_FOUND, false)
        end).
Proof.
  intros Hdbg. unfold extract_price.
  assert (Hw : (if save_debug_info then html pg else Ok ()) = Ok ()).
  { destruct save_debug_info; auto. }
  rewrite Hw. cbn [mbind outcome_bind].
  pose proof (try_strategies_spec pg extraction_strategies None eq_refl) as H.
  change (List.map (fun strategy => strategy pg) extraction_strategies)
    with [_extract_price_strategy_1 pg; _extract_price_strategy_2 pg;
          _extract_price_strategy_3 pg] in H.
  destruct (first_some Spec.passing _) as [v |].
  - destruct H as [-> Ht]. rewrite Ht. reflexivity.
  - rewrite H. reflexivity.
Qed.

(** C1, as the code has it. [extract_price] tries the strategies in the
    order 1, 2, 3 and returns, with [True], the value of the first that
    answers with a text holding a decimal digit (nothing more is asked of
    the value: it need not be positive); so when strategy 1 finds nothing
    and strategy 2 answers with such a value, that value is returned. When
    no strategy answers so, the result is ("未找到价格", False). *)
Theorem extract_price_first_validated (pg : page) (save_debug_info : bool) :
  (save_debug_info = true -> html pg = Ok ()) ->
  extract_price (Some pg) save_debug_info =
    Ok (match first_some Spec.passing
                [_extract_price_strategy_1 pg; _extract_price_strategy_2 pg;
                 _extract_price_strategy_3 pg] with
        | Some v => (v, true)
        | None => (NOT_FOUND, false)
        end)
  /\ (forall v,
        _extract_price_strategy_1 pg = Ok None ->
        _extract_price_strategy_2 pg = Ok (Some v) ->
        Spec.validated v = true ->
        extract_price (Some pg) save_debug_info = Ok (v, true)).
Proof.
  intros Hdbg. split.
  - apply (extract_price_spec pg save_debug_info Hdbg).
  - intros v H1 H2 Hv.
    rewrite (extract_price_spec pg save_debug_info Hdbg), H1, H2.
    simpl. rewrite Hv. reflexivity.
Qed.

Lemma extract_price_first_validated_witness :
  extract_price (Some (Examples.script_only_page (u "12.0"))) true =
    Ok (u "12.0", true).
Proof.
  apply (proj2 (extract_price_first_validated
                  (Examples.script_only_page (u "12.0")) true
                  (fun _ => eq_refl)) (u "12.0")).
  - vm_compute. reflexivity.
  - vm_compute. reflexivity.
  - vm_compute. reflexivity.
Defined.

(** C1 as stated fails: strategy 1 answers "0", which is not a positive
    number, and [extract_price] returns it; the first strategy with a
    positive value is strategy 2, with "9.9". *)
Lemma extract_price_accepts_zero :
  _extract_price_strategy_1 Examples.zero_price_page = Ok (Some (u "0"))
  /\ Float.of_str (u "0") = Ok (S754_zero false)
  /\ _extract_price_strategy_2 Examples.zero_price_page = Ok (Some (u "9.9"))
  /\ extract_price (Some Examples.zero_price_page) true = Ok (u "0", true)
  /\ Spec.first_positive
       [_extract_price_strategy_1 Examples.zero_price_page;
        _extract_price_strategy_2 Examples.zero_price_page;
        _extract_price_strategy_3 Examples.zero_price_page] = (u "9.9", true).
Proof. repeat split; vm_compute; reflexivity. Qed.

(** *** Strategy 3 *)

Lemma in_bounds_positive_finite (x : Float.float) :
  Float.ltb (S754_zero false) x = true ->
  Float.ltb x (Float.of_Z 100000) = true ->
  Float.positive_finite x.
Proof.
  destruct x as [s | [|] | | [|] m e]; try discriminate; intros _ _.
  exists m, e. reflexivity.
Qed.

Lemma ltb_positive_finite (m1 m2 : positive) (e1 e2 : Z) :
  Float.ltb (S754_finite false m1 e1) (S754_finite false m2 e2) = true
  <-> (e1 < e2 \/ (e1 = e2 /\ (m1 < m2)%positive)).
Proof.
  unfold Float.ltb, SFltb, SFcompare.
  change (Pos.compare_cont Eq m1 m2) with (Pos.compare m1 m2).
  destruct (Z.compare_spec e1 e2) as [He | He | He];
    destruct (Pos.compare_spec m1 m2) as [Hm | Hm | Hm];
    split; intros H; try discriminate; try reflexivity; lia.
Qed.

Lemma ltb_irrefl (x : Float.float) :
  Float.positive_finite x -> Float.ltb x x = false.
Proof.
  intros (m & e & ->). apply not_true_iff_false.
  rewrite ltb_positive_finite. lia.
Qed.

Lemma ltb_asym (x y : Float.float) :
  Float.positive_finite x -> Float.positive_finite y ->
  Float.ltb x y = true -> Float.ltb y x = false.
Proof.
  intros (m1 & e1 & ->) (m2 & e2 & ->) H. apply not_true_iff_false.
  rewrite ltb_positive_finite in *. lia.
Qed.

Lemma ltb_neg_trans (x y z : Float.float) :
  Float.positive_finite x -> Float.positive_finite y -> Float.positive_finite z ->
  Float.ltb x y = false -> Float.ltb y z = false -> Float.ltb x z = false.
Proof.
  intros (m1 & e1 & ->) (m2 & e2 & ->) (m3 & e3 & ->) H1 H2.
  apply not_true_iff_false in H1, H2. apply not_true_iff_false.
  rewrite ltb_positive_finite in *. lia.
Qed.

(** The head of the sorted list is in the list and no key is below its
    key. *)
Lemma sort_by_key_head (l : list (Float.float * str)) :
  Forall (fun y => Float.positive_finite (fst y)) l ->
  l <> [] ->
  exists h t, sort_by_key l = h :: t /\ In h l
              /\ forall y, In y l -> Float.ltb (fst y) (fst h) = false.
Proof.
  induction 1 as [| x l Hx Hl IH]; [congruence |]. intros _. simpl.
  destruct l as [| x' l'].
  - exists x, []. simpl. repeat split; auto.
    intros y [<- | []]. apply ltb_irrefl. assumption.
  - destruct IH as (h & t & Hs & Hin & Hmin); [discriminate |].
    rewrite Hs. simpl.
    assert (Hh : Float.positive_finite (fst h)).
    { rewrite List.Forall_forall in Hl. apply Hl. assumption. }
    destruct (Float.ltb (fst h) (fst x)) eqn:E.
    + exists h, (insert_by_key x t). repeat split; auto.
      intros y [<- | Hy]; [apply ltb_asym; assumption | auto].
    + exists x, (h :: t). repeat split; auto.
      intros y [<- | Hy]; [apply ltb_irrefl; assumption |].
      apply (ltb_neg_trans _ (fst h)); auto.
      rewrite List.Forall_forall in Hl. apply Hl. assumption.
Qed.

Lemma price_patterns_decimal : Forall Spec.decimal_pattern price_patterns.
Proof.
  unfold price_patterns.
  repeat constructor; try reflexivity; intros t;
    unfold pattern_yen, pattern_label, pattern_unit, pattern_price_word, yen, star;
    cbn [group_lang]; intros H; apply ReFacts.decimal_group; tauto.
Qed.

Lemma findall_parsed (r : regex) (page_text : str) :
  Spec.decimal_pattern r ->
  Forall (fun q => exists x, Float.of_str q = Ok x) (findall r page_text).
Proof.
  intros [Hc Hg]. apply List.Forall_forall. intros q Hq.
  destruct (FloatFacts.of_str_decimal q (Hg q (ReFacts.findall_group r _ q Hc Hq)))
    as (m & k & ->).
  eauto.
Qed.

Lemma in_range_survives (q : str) (x : Float.float) :
  Float.of_str q = Ok x -> in_range q = Ok (Spec.survives q).
Proof.
  intros H. unfold in_range, Spec.survives, Spec.value. rewrite H.
  cbn [mbind outcome_bind].
  destruct (Float.ltb (S754_zero false) x); reflexivity.
Qed.

Lemma valid_prices_filter (l : list str) :
  Forall (fun q => exists x, Float.of_str q = Ok x) l ->
  valid_prices l = Ok (List.filter Spec.survives l).
Proof.
  induction 1 as [| q l [x Hx] Hl IH]; simpl; [reflexivity |].
  rewrite (in_range_survives q x Hx), IH. cbn [mbind outcome_bind].
  destruct (Spec.survives q); reflexivity.
Qed.

Lemma with_keys_values (l : list str) :
  Forall (fun q => exists x, Float.of_str q = Ok x) l ->
  with_keys l = Ok (List.map (fun q => (Spec.value q, q)) l).
Proof.
  induction 1 as [| q l [x Hx] Hl IH]; simpl; [reflexivity |].
  unfold Spec.value at 1. rewrite Hx, IH. reflexivity.
Qed.

Lemma survives_positive_finite (q : str) :
  Spec.survives q = true -> Float.positive_finite (Spec.value q).
Proof.
  unfold Spec.survives. intros H. apply andb_true_iff in H.
  destruct H as [H1 H2]. apply in_bounds_positive_finite; assumption.
Qed.

(** The smallest of the matches of one pattern that the filter keeps. *)
Lemma sorted_survivors (l : list str) :
  Forall (fun q => exists x, Float.of_str q = Ok x) l ->
  List.filter Spec.survives l <> [] ->
  exists p, (sorted ← sorted_by_float (List.filter Spec.survives l);
             Ok (List.head sorted)) = Ok (Some p)
            /\ In p l /\ Spec.survives p = true
            /\ forall q, In q l -> Spec.survives q = true ->
                         Float.ltb (Spec.value q) (Spec.value p) = false.
Proof.
  intros Hl Hne. unfold sorted_by_float.
  assert (Hf : Forall (fun q => exists x, Float.of_str q = Ok x)
                      (List.filter Spec.survives l)).
  { apply List.Forall_forall. intros q Hq. apply filter_In in Hq.
    rewrite List.Forall_forall in Hl. apply Hl. tauto. }
  rewrite (with_keys_values _ Hf). cbn [mbind outcome_bind].
  set (keyed := List.map (fun q => (Spec.value q, q)) (List.filter Spec.survives l)).
  assert (Hk : Forall (fun y => Float.positive_finite (fst y)) keyed).
  { apply List.Forall_forall. intros y Hy. subst keyed.
    apply in_map_iff in Hy. destruct Hy as (q & <- & Hq).
    apply filter_In in Hq. apply survives_positive_finite. tauto. }
  assert (Hkne : keyed <> []).
  { subst keyed. destruct (List.filter Spec.survives l); [congruence | discriminate]. }
  destruct (sort_by_key_head keyed Hk Hkne) as (h & t & Hs & Hin & Hmin).
  rewrite Hs. simpl. exists (snd h).
  subst keyed. apply in_map_iff in Hin. destruct Hin as (p & <- & Hp).
  apply filter_In in Hp. destruct Hp as [Hp Hsp]. simpl.
  repeat split; auto.
  intros q Hq Hsq.
  apply (Hmin (Spec.value q, q)). apply in_map_iff. exists q.
  split; [reflexivity |]. apply filter_In. auto.
Qed.

Lemma filter_nil_none (l : list str) :
  List.filter Spec.survives l = [] ->
  forall q, In q l -> Spec.survives q = false.
Proof.
  intros H q Hq. destruct (Spec.survives q) eqn:E; [| reflexivity].
  assert (Hin : In q (List.filter Spec.survives l)) by (apply filter_In; auto).
  rewrite H in Hin. contradiction.
Qed.

(** The loop over the patterns: the first pattern with a match that is kept
    decides, and its smallest kept match is the result. *)
Lemma price_of_patterns_spec (page_text : str) (patterns : list regex) :
  Forall Spec.decimal_pattern patterns ->
  match price_of_patterns page_text patterns with
  | Ok (Some p) =>
      exists before pattern after,
        patterns = before ++ pattern :: after
        /\ (forall r q, In r before -> In q (findall r page_text) ->
                        Spec.survives q = false)
        /\ In p (findall pattern page_text)
        /\ Spec.survives p = true
        /\ (forall q, In q (findall pattern page_text) ->
                      Spec.survives q = true ->
                      Float.ltb (Spec.value q) (Spec.value p) = false)
  | Ok None =>
      forall r q, In r patterns -> In q (findall r page_text) ->
                  Spec.survives q = false
  | Raise _ => False
  end.
Proof.
  induction 1 as [| pattern patterns Hp Hps IH]; cbn [price_of_patterns].
  - intros r q [].
  - pose proof (findall_parsed pattern page_text Hp) as Hparsed.
    assert (Hskip :
      List.filter Spec.survives (findall pattern page_text) = [] ->
      match price_of_patterns page_text patterns with
      | Ok (Some p) =>
          exists before pattern0 after,
            pattern :: patterns = before ++ pattern0 :: after
            /\ (forall r q, In r before -> In q (findall r page_text) ->
                            Spec.survives q = false)
            /\ In p (findall pattern0 page_text)
            /\ Spec.survives p = true
            /\ (forall q, In q (findall pattern0 page_text) ->
                          Spec.survives q = true ->
                          Float.ltb (Spec.value q) (Spec.value p) = false)
      | Ok None =>
          forall r q, In r (pattern :: patterns) -> In q (findall r page_text) ->
                      Spec.survives q = false
      | Raise _ => False
      end).
    { intros Hnil. pose proof (filter_nil_none _ Hnil) as Hnone.
      destruct (price_of_patterns page_text patterns) as [[p |] | e]; [| | exact IH].
      - destruct IH as (before & pattern0 & after & -> & Hb & Hrest).
        exists (pattern :: before), pattern0, after.
        split; [reflexivity |]. split; [| exact Hrest].
        intros r q [<- | Hr] Hq; eauto.
      - intros r q [<- | Hr] Hq; eauto. }
    destruct (findall pattern page_text) as [| m ms] eqn:Em.
    + apply Hskip. reflexivity.
    + rewrite (valid_prices_filter _ Hparsed). cbn [mbind outcome_bind].
      destruct (List.filter Spec.survives (m :: ms)) as [| v vs] eqn:Ev.
      * apply Hskip. reflexivity.
      * destruct (sorted_survivors (m :: ms) Hparsed) as (p & Hsorted & Hin & Hsp & Hmin).
        { rewrite Ev. discriminate. }
        rewrite Ev in Hsorted. rewrite Hsorted.
        exists [], pattern, patterns. rewrite Em.
        repeat split; auto. intros r q [].
Qed.

(** *** The answers of the strategies are decimal texts *)

Lemma first_some_found {A B} (f : A -> option B) (l : list A) (b : B) :
  first_some f l = Some b -> exists a, In a l /\ f a = Some b.
Proof.
  induction l as [| a l IH]; simpl; [discriminate |].
  destruct (f a) as [b' |] eqn:E.
  - intros [= <-]. eauto.
  - intros H. destruct (IH H) as (a' & Hin & Ha). eauto.
Qed.

Lemma price_in_parent_decimal : Spec.decimal_pattern price_in_parent.
Proof.
  split; [reflexivity |]. intros t. unfold price_in_parent, star.
  cbn [group_lang]. intros H. apply ReFacts.decimal_group. tauto.
Qed.

Lemma decimal_decimal : Spec.decimal_pattern decimal.
Proof. split; [reflexivity | apply ReFacts.decimal_group]. Qed.

Lemma search_decimal_pattern (r : regex) (s : str) (g : option str) :
  Spec.decimal_pattern r -> search r s = Some g ->
  exists t, g = Some t /\ Spec.decimal_text t.
Proof.
  intros [Hc Hg] H.
  destruct (ReFacts.search_group r s g Hc H) as (t & -> & Ht). eauto.
Qed.

Lemma price_of_elements_decimal (elements : list element) (g : option str) :
  price_of_elements elements = Some g ->
  exists t, g = Some t /\ Spec.decimal_text t.
Proof.
  unfold price_of_elements.
  destruct (first_some (fun ele => search decimal (text ele)) elements)
    as [g1 |] eqn:E1.
  - intros [= <-]. destruct (first_some_found _ _ _ E1) as (ele & _ & H).
    apply (search_decimal_pattern _ _ _ decimal_decimal H).
  - intros E2. destruct (first_some_found _ _ _ E2) as (ele & _ & H).
    destruct (parent ele) as [parent_text |]; [| discriminate].
    apply (search_decimal_pattern _ _ _ price_in_parent_decimal H).
Qed.

Lemma strategy_1_decimal (pg : page) (p : str) :
  _extract_price_strategy_1 pg = Ok (Some p) -> Spec.decimal_text p.
Proof.
  unfold _extract_price_strategy_1. generalize price_selectors.
  intros sels. induction sels as [| sel sels IH]; cbn [price_of_selectors].
  - discriminate.
  - destruct (eles pg sel) as [elements | e]; cbn [mbind outcome_bind];
      [| discriminate].
    destruct (price_of_elements elements) as [g |] eqn:E; [| exact IH].
    destruct (price_of_elements_decimal _ _ E) as (t & -> & Ht).
    intros [= <-]. assumption.
Qed.

Lemma strategy_2_decimal (pg : page) (p : str) :
  _extract_price_strategy_2 pg = Ok (Some p) -> Spec.decimal_text p.
Proof.
  unfold _extract_price_strategy_2.
  destruct (run_js pg) as [price_info | e]; cbn [mbind outcome_bind];
    [| discriminate].
  destruct (truthy price_info); [| discriminate].
  destruct (search decimal (default [] price_info)) as [g |] eqn:E;
    [| discriminate].
  destruct (search_decimal_pattern _ _ _ decimal_decimal E) as (t & -> & Ht).
  intros [= <-]. assumption.
Qed.

Lemma strategy_3_decimal (pg : page) (p : str) :
  _extract_price_strategy_3 pg = Ok (Some p) -> Spec.decimal_text p.
Proof.
  unfold _extract_price_strategy_3.
  destruct (body_text pg) as [page_text | e]; cbn [mbind outcome_bind];
    [| discriminate].
  pose proof (price_of_patterns_spec page_text price_patterns
                price_patterns_decimal) as H.
  intros E. rewrite E in H.
  destruct H as (before & pattern & after & Hps & _ & Hin & _).
  assert (Hpat : Spec.decimal_pattern pattern).
  { pose proof price_patterns_decimal as Hall.
    rewrite List.Forall_forall in Hall. apply Hall.
    rewrite Hps. apply in_or_app. right. left. reflexivity. }
  destruct Hpat as [Hc Hg].
  apply Hg. apply (ReFacts.findall_group pattern page_text p Hc Hin).
Qed.

Lemma decimal_text_validated (p : str) :
  Spec.decimal_text p -> Spec.validated p = true.
Proof.
  intros (a & rest & -> & Hne & Ha & _). unfold Spec.validated.
  destruct a as [| c a]; [congruence |].
  simpl. rewrite (Forall_inv Ha). reflexivity.
Qed.

(** Whatever value a strategy answers passes the check of [extract_price]:
    the first strategy that answers with a value is the one that decides. *)
Lemma strategy_answers_pass (pg : page) (p : str) :
  (_extract_price_strategy_1 pg = Ok (Some p)
   \/ _extract_price_strategy_2 pg = Ok (Some p)
   \/ _extract_price_strategy_3 pg = Ok (Some p)) ->
  Spec.validated p = true.
Proof.
  intros [H | [H | H]]; apply decimal_text_validated;
    eauto using strategy_1_decimal, strategy_2_decimal, strategy_3_decimal.
Qed.

(** A price that [extract_price] returns is a decimal text, which [float]
    accepts. *)
Lemma extract_price_decimal (pg : page) (save_debug_info : bool) (p : str) :
  extract_price (Some pg) save_debug_info = Ok (p, true) ->
  Spec.decimal_text p.
Proof.
  intros H.
  assert (Hw : save_debug_info = true -> html pg = Ok ()).
  { intros ->. unfold extract_price in H.
    destruct (html pg) as [[] | e]; [reflexivity | discriminate]. }
  rewrite (extract_price_spec pg save_debug_info Hw) in H.
  cbn [first_some] in H.
  destruct (Spec.passing (_extract_price_strategy_1 pg)) as [v1 |] eqn:E1;
    [| destruct (Spec.passing (_extract_price_strategy_2 pg)) as [v2 |] eqn:E2;
       [| destruct (Spec.passing (_extract_price_strategy_3 pg)) as [v3 |] eqn:E3]];
    try discriminate; injection H as <-.
  - apply (strategy_1_decimal pg).
    destruct (_extract_price_strategy_1 pg) as [[q |] | e]; simpl in E1;
      try discriminate.
    destruct (Spec.validated q); congruence.
  - apply (strategy_2_decimal pg).
    destruct (_extract_price_strategy_2 pg) as [[q |] | e]; simpl in E2;
      try discriminate.
    destruct (Spec.validated q); congruence.
  - apply (strategy_3_decimal pg).
    destruct (_extract_price_strategy_3 pg) as [[q |] | e]; simpl in E3;
      try discriminate.
    destruct (Spec.validated q); congruence.
Qed.

(** C2, as the code has it. Strategy 3 goes through the patterns in their
    order and raises nothing; the first pattern with a match whose float
    is above 0 and below 100000 decides: the result is a match of that
    pattern, in this range, and no match of that pattern in this range is
    smaller. The matches of the patterns after it are not looked at. With
    no such match under any pattern the result is [None]. The text
    "¥999999 ¥9.9" gives "9.9". *)
Theorem strategy_3_first_pattern_smallest (pg : page) (page_text : str) :
  body_text pg = Ok page_text ->
  match _extract_price_strategy_3 pg with
  | Ok (Some p) =>
      exists before pattern after,
        price_patterns = before ++ pattern :: after
        /\ (forall r q, In r before -> In q (findall r page_text) ->
                        Spec.survives q = false)
        /\ In p (findall pattern page_text)
        /\ Spec.survives p = true
        /\ (forall q, In q (findall pattern page_text) ->
                      Spec.survives q = true ->
                      Float.ltb (Spec.value q) (Spec.value p) = false)
  | Ok None =>
      forall r q, In r price_patterns -> In q (findall r page_text) ->
                  Spec.survives q = false
  | Raise _ => False
  end
  /\ _extract_price_strategy_3 (Examples.text_page (u "¥999999 ¥9.9")) =
       Ok (Some (u "9.9")).
Proof.
  intros Hbody. split.
  - unfold _extract_price_strategy_3. rewrite Hbody. cbn [mbind outcome_bind].
    apply (price_of_patterns_spec page_text price_patterns price_patterns_decimal).
  - vm_compute. reflexivity.
Qed.

Lemma strategy_3_first_pattern_smallest_witness :
  match _extract_price_strategy_3 (Examples.text_page (u "¥999999 ¥9.9")) with
  | Ok (Some p) =>
      exists before pattern after,
        price_patterns = before ++ pattern :: after
        /\ (forall r q, In r before -> In q (findall r (u "¥999999 ¥9.9")) ->
                        Spec.survives q = false)
        /\ In p (findall pattern (u "¥999999 ¥9.9"))
        /\ Spec.survives p = true
        /\ (forall q, In q (findall pattern (u "¥999999 ¥9.9")) ->
                      Spec.survives q = true ->
                      Float.ltb (Spec.value q) (Spec.value p) = false)
  | Ok None =>
      forall r q, In r price_patterns -> In q (findall r (u "¥999999 ¥9.9")) ->
                  Spec.survives q = false
  | Raise _ => False
  end
  /\ _extract_price_strategy_3 (Examples.text_page (u "¥999999 ¥9.9")) =
       Ok (Some (u "9.9")).
Proof.
  apply (strategy_3_first_pattern_smallest
           (Examples.text_page (u "¥999999 ¥9.9")) (u "¥999999 ¥9.9")).
  reflexivity.
Defined.

(** C2 as stated fails: in "¥50 运费5元" the match "5" of the third
    pattern is in range and smaller than "50", the only match of the first
    pattern, and strategy 3 answers "50". *)
Lemma strategy_3_not_smallest_of_all :
  let page_text := u "¥50 运费5元" in
  findall pattern_yen page_text = [u "50"]
  /\ findall pattern_unit page_text = [u "5"]
  /\ Spec.survives (u "5") = true
  /\ Float.ltb (Spec.value (u "5")) (Spec.value (u "50")) = true
  /\ _extract_price_strategy_3 (Examples.text_page page_text) = Ok (Some (u "50"))
  /\ Spec.smallest_of_all page_text = Ok (Some (u "5")).
Proof. repeat split; vm_compute; reflexivity. Qed.

End ScraperFacts.

(** ** The price history *)

Module HistoryFacts.

Import History.

(** Writing a field of an entry that is present is storing the new entry. *)
Lemma alter_present (f : entry -> entry) (h : gmap str entry) (k : str) (e : entry) :
  h !! k = Some e -> alter f k h = <[k := f e]> h.
Proof.
  intros Hk. apply map_eq. intros j.
  destruct (decide (k = j)) as [<- | Hne].
  - rewrite lookup_alter_eq, lookup_insert_eq, Hk. reflexivity.
  - rewrite lookup_alter_ne, lookup_insert_ne by assumption. reflexivity.
Qed.

Lemma str_eqb_eq (a b : str) : str_eqb a b = true <-> a = b.
Proof. unfold str_eqb. apply bool_decide_eq_true. Qed.

Lemma str_eqb_neq (a b : str) : str_eqb a b = false <-> a <> b.
Proof. unfold str_eqb. apply bool_decide_eq_false. Qed.

(** Known id, another price string: name, price and timestamp are written. *)
Lemma known_other_price (h : gmap str entry)
    (timestamp item_id product_name current_price : str) (e : entry) :
  h !! item_id = Some e ->
  price e <> current_price ->
  check_price_change h timestamp item_id product_name current_price =
    (<[item_id := {| name := product_name; price := current_price;
                     last_update := timestamp |}]> h,
     {| is_new_item := false; has_changed := true; old_price := Some (price e) |}).
Proof.
  intros Hk Hne. unfold check_price_change. rewrite Hk.
  apply str_eqb_neq in Hne. rewrite Hne. simpl.
  rewrite (alter_present (set_name product_name) h item_id e Hk).
  rewrite (alter_present (set_price current_price) _ item_id
             (set_name product_name e)) by apply lookup_insert_eq.
  rewrite (alter_present (set_last_update timestamp) _ item_id
             (set_price current_price (set_name product_name e)))
    by apply lookup_insert_eq.
  rewrite !insert_insert_eq. reflexivity.
Qed.

(** C3. For an id that is in the history with a price string different
    from the supplied one, [check_price_change] stores the supplied price
    and the timestamp (and the supplied name), reports [has_changed] and
    returns the price stored before as [old_price]. The prices are
    compared as strings. *)
Theorem check_price_change_changed (h : gmap str entry)
    (timestamp item_id product_name current_price : str) (e : entry) :
  h !! item_id = Some e ->
  price e <> current_price ->
  check_price_change h timestamp item_id product_name current_price =
    (<[item_id := {| name := product_name; price := current_price;
                     last_update := timestamp |}]> h,
     {| is_new_item := false; has_changed := true; old_price := Some (price e) |}).
Proof. exact (known_other_price h timestamp item_id product_name current_price e). Qed.

(** The example of the specification: stored "10.0", supplied "12.0". *)
Lemma check_price_change_changed_witness :
  check_price_change
    {[ u "123" := {| name := u "cup"; price := u "10.0";
                     last_update := u "2024-05-01 08:00:00" |} ]}
    (u "2024-05-02 08:00:00") (u "123") (u "cup") (u "12.0") =
  (<[ u "123" := {| name := u "cup"; price := u "12.0";
                    last_update := u "2024-05-02 08:00:00" |} ]>
     {[ u "123" := {| name := u "cup"; price := u "10.0";
                      last_update := u "2024-05-01 08:00:00" |} ]},
   {| is_new_item := false; has_changed := true; old_price := Some (u "10.0") |}).
Proof.
  apply (check_price_change_changed _ _ _ _ _
           {| name := u "cup"; price := u "10.0";
              last_update := u "2024-05-01 08:00:00" |}).
  - vm_compute. reflexivity.
  - vm_compute. discriminate.
Defined.

(** Unknown id: an entry is made. *)
Lemma unknown_id (h : gmap str entry)
    (timestamp item_id product_name current_price : str) :
  h !! item_id = None ->
  check_price_change h timestamp item_id product_name current_price =
    (<[item_id := {| name := product_name; price := current_price;
                     last_update := timestamp |}]> h,
     {| is_new_item := true; has_changed := false; old_price := None |}).
Proof.
  intros Hk. unfold check_price_change. rewrite Hk. reflexivity.
Qed.

(** The prices are compared as texts: "10.0" against "10.00" is a change. *)
Example check_price_change_compares_text :
  has_changed
    (snd (check_price_change Examples.cup_history (u "2024-05-02 08:00:00")
            (u "123") (u "cup") (u "10.00"))) = true
  /\ Float.of_str (u "10.0") = Float.of_str (u "10.00").
Proof. split; vm_compute; reflexivity. Qed.

(** C4. For an id that is not in the history, [check_price_change] stores
    an entry with the given name, price and timestamp and returns
    [is_new_item] true, [has_changed] false and no [old_price]. *)
Theorem check_price_change_new (h : gmap str entry)
    (timestamp item_id product_name current_price : str) :
  h !! item_id = None ->
  check_price_change h timestamp item_id product_name current_price =
    (<[item_id := {| name := product_name; price := current_price;
                     last_update := timestamp |}]> h,
     {| is_new_item := true; has_changed := false; old_price := None |}).
Proof. exact (unknown_id h timestamp item_id product_name current_price). Qed.

Lemma check_price_change_new_witness :
  check_price_change ∅ (u "2024-05-01 08:00:00") (u "123") (u "cup") (u "10.0") =
  (<[ u "123" := {| name := u "cup"; price := u "10.0";
                    last_update := u "2024-05-01 08:00:00" |} ]> ∅,
   {| is_new_item := true; has_changed := false; old_price := None |}).
Proof.
  apply (check_price_change_new ∅). vm_compute. reflexivity.
Defined.

(** Known id, same price string: only the name is written. *)
Lemma known_same_price (h : gmap str entry)
    (timestamp item_id product_name current_price : str) (e : entry) :
  h !! item_id = Some e ->
  price e = current_price ->
  check_price_change h timestamp item_id product_name current_price =
    (<[item_id := set_name product_name e]> h,
     {| is_new_item := false; has_changed := false;
        old_price := Some current_price |}).
Proof.
  intros Hk Heq. unfold check_price_change. rewrite Hk.
  apply str_eqb_eq in Heq as Hb. rewrite Hb. simpl.
  rewrite (alter_present (set_name product_name) h item_id e Hk).
  rewrite Heq. reflexivity.
Qed.

(** After a call the id is stored with the supplied name and price. *)
Lemma check_price_change_stored (h : gmap str entry)
    (timestamp item_id product_name current_price : str) :
  exists e,
    fst (check_price_change h timestamp item_id product_name current_price)
      !! item_id = Some e
    /\ name e = product_name /\ price e = current_price.
Proof.
  destruct (h !! item_id) as [e|] eqn:Hk.
  - destruct (decide (price e = current_price)) as [Heq | Hne].
    + rewrite (known_same_price h _ _ _ _ e Hk Heq). simpl.
      exists (set_name product_name e). rewrite lookup_insert_eq. auto.
    + rewrite (known_other_price h _ _ _ _ e Hk Hne). simpl.
      eexists. rewrite lookup_insert_eq. split; [reflexivity | auto].
  - rewrite (unknown_id h _ _ _ _ Hk). simpl.
    eexists. rewrite lookup_insert_eq. split; [reflexivity | auto].
Qed.

(** A call with the name and price that are stored changes nothing. *)
Lemma check_price_change_again (h : gmap str entry)
    (timestamp item_id product_name current_price : str) (e : entry) :
  h !! item_id = Some e ->
  name e = product_name ->
  price e = current_price ->
  check_price_change h timestamp item_id product_name current_price =
    (h, {| is_new_item := false; has_changed := false;
           old_price := Some current_price |}).
Proof.
  intros Hk Hn Hp.
  rewrite (known_same_price h _ _ _ _ e Hk Hp).
  replace (set_name product_name e) with e
    by (destruct e; unfold set_name; simpl in *; congruence).
  rewrite (insert_id h item_id e Hk). reflexivity.
Qed.

Lemma check_repeatedly_again (timestamps : list str) (h : gmap str entry)
    (item_id product_name current_price : str) (e : entry) :
  h !! item_id = Some e ->
  name e = product_name ->
  price e = current_price ->
  check_repeatedly h timestamps item_id product_name current_price =
    (h, List.map (fun _ => {| is_new_item := false; has_changed := false;
                              old_price := Some current_price |}) timestamps).
Proof.
  intros Hk Hn Hp. induction timestamps as [| t ts IH]; simpl.
  - reflexivity.
  - rewrite (check_price_change_again h t _ _ _ e Hk Hn Hp), IH. reflexivity.
Qed.

(** C5. [check_price_change] called twice in succession with the same id,
    name and price reports [has_changed] false the second time, whatever
    the history was before; and so does every further call with these
    arguments after the first. *)
Theorem check_price_change_idempotent (h : gmap str entry)
    (t1 t2 : str) (later : list str) (item_id product_name current_price : str) :
  has_changed
    (snd (check_price_change
            (fst (check_price_change h t1 item_id product_name current_price))
            t2 item_id product_name current_price)) = false
  /\ Forall (fun result => has_changed result = false)
        (List.tl (snd (check_repeatedly h (t1 :: later)
                         item_id product_name current_price))).
Proof.
  destruct (check_price_change_stored h t1 item_id product_name current_price)
    as (e & Hk & Hn & Hp).
  split.
  - rewrite (check_price_change_again _ t2 _ _ _ e Hk Hn Hp). reflexivity.
  - simpl.
    destruct (check_price_change h t1 item_id product_name current_price)
      as [h1 r1] eqn:E1. simpl in Hk.
    rewrite (check_repeatedly_again later h1 _ _ _ e Hk Hn Hp). simpl.
    induction later; simpl; constructor; auto.
Qed.

(** C6, as the code has it. For an id that is in the history with the
    supplied price string, [check_price_change] leaves the price and the
    timestamp of the entry as they are, writes the supplied name into it,
    touches no other entry, and returns [is_new_item] false and
    [has_changed] false. *)
Theorem check_price_change_same_price (h : gmap str entry)
    (timestamp item_id product_name current_price : str) (e : entry) :
  h !! item_id = Some e ->
  price e = current_price ->
  check_price_change h timestamp item_id product_name current_price =
    (<[item_id := {| name := product_name; price := price e;
                     last_update := last_update e |}]> h,
     {| is_new_item := false; has_changed := false;
        old_price := Some (price e) |}).
Proof.
  intros Hk Heq.
  rewrite (known_same_price h _ _ _ _ e Hk Heq).
  unfold set_name. rewrite Heq. reflexivity.
Qed.

Lemma check_price_change_same_price_witness :
  check_price_change
    {[ u "123" := {| name := u "cup"; price := u "10.0";
                     last_update := u "2024-05-01 08:00:00" |} ]}
    (u "2024-05-02 08:00:00") (u "123") (u "mug") (u "10.0") =
  (<[ u "123" := {| name := u "mug"; price := u "10.0";
                    last_update := u "2024-05-01 08:00:00" |} ]>
     {[ u "123" := {| name := u "cup"; price := u "10.0";
                      last_update := u "2024-05-01 08:00:00" |} ]},
   {| is_new_item := false; has_changed := false; old_price := Some (u "10.0") |}).
Proof.
  apply (check_price_change_same_price _ _ _ _ _
           {| name := u "cup"; price := u "10.0";
              last_update := u "2024-05-01 08:00:00" |}).
  - vm_compute. reflexivity.
  - vm_compute. reflexivity.
Defined.

(** C6 as stated fails: with the stored price supplied again under another
    name, the entry of the id is not what it was. *)
Lemma check_price_change_same_price_renames :
  let h : gmap str entry :=
    {[ u "123" := {| name := u "cup"; price := u "10.0";
                     last_update := u "2024-05-01 08:00:00" |} ]} in
  let after :=
    fst (check_price_change h (u "2024-05-02 08:00:00")
           (u "123") (u "mug") (u "10.0")) in
  (price <$> h !! u "123") = Some (u "10.0")
  /\ (name <$> h !! u "123") = Some (u "cup")
  /\ (name <$> after !! u "123") = Some (u "mug")
  /\ after <> h.
Proof.
  cbv zeta. repeat split; try (vm_compute; reflexivity).
  intros Heq.
  assert (Hn : (name <$> fst (check_price_change
                    {[ u "123" := {| name := u "cup"; price := u "10.0";
                                     last_update := u "2024-05-01 08:00:00" |} ]}
                    (u "2024-05-02 08:00:00") (u "123") (u "mug") (u "10.0"))
                  !! u "123") = Some (u "mug")) by (vm_compute; reflexivity).
  rewrite Heq in Hn. vm_compute in Hn. discriminate.
Qed.

End HistoryFacts.

(** ** The suggested price *)

Module ReporterFacts.

Import Reporter.

Lemma before_first_idem (sep : N) (s : str) :
  before_first sep (before_first sep s) = before_first sep s.
Proof.
  induction s as [| c s IH]; simpl.
  - reflexivity.
  - destruct (c =? sep)%N eqn:E; simpl.
    + reflexivity.
    + rewrite E, IH. reflexivity.
Qed.

(** C7. With the default configuration "1.0" gives "1.5" and "3.0" gives
    "3.6"; but "0.2" gives "0.4", where [ceil(0.2 * 1.5 * 10) / 10] is
    0.3: the product is computed in binary floating point, comes out just
    above 3 and is rounded up to 4. *)
Theorem calculate_suggested_price_default_examples :
  calculate_suggested_price DEFAULT_CONFIG (u "1.0") = Ok (u "1.5")
  /\ calculate_suggested_price DEFAULT_CONFIG (u "3.0") = Ok (u "3.6")
  /\ Spec.suggested_price (1 # 1) = u "1.5"
  /\ Spec.suggested_price (3 # 1) = u "3.6"
  /\ Float.of_str (u "0.2") = Ok (Float.of_decimal false 2 (-1))
  /\ Float.mul (Float.mul (Float.of_decimal false 2 (-1)) (low_price_multiplier DEFAULT_CONFIG))
               (Float.of_Z 10)
     = S754_finite false 6755399441055745 (-51)
  /\ calculate_suggested_price DEFAULT_CONFIG (u "0.2") = Ok (u "0.4")
  /\ Spec.suggested_price (2 # 10) = u "0.3".
Proof. repeat split; vm_compute; reflexivity. Qed.

Lemma calculate_suggested_price_returns (CONFIG : price_calculation) (s : str) :
  exists r, calculate_suggested_price CONFIG s = Ok r.
Proof.
  unfold calculate_suggested_price, try_except.
  destruct (suggested_price CONFIG s) as [r | e]; eauto.
Qed.

Lemma suggested_price_before_paren (CONFIG : price_calculation) (s : str) :
  suggested_price CONFIG (before_first 40%N s) = suggested_price CONFIG s.
Proof. unfold suggested_price. rewrite before_first_idem. reflexivity. Qed.

Lemma suggested_price_unparsed (CONFIG : price_calculation) (s : str) (e : exn) :
  Float.of_str (before_first 40%N s) = Raise e ->
  calculate_suggested_price CONFIG s = Ok CANNOT_CALCULATE.
Proof.
  intros H. unfold calculate_suggested_price, suggested_price.
  rewrite H. reflexivity.
Qed.

Lemma suggested_price_computed (CONFIG : price_calculation) (s : str)
    (price_float : Float.float) :
  Float.of_str (before_first 40%N s) = Ok price_float ->
  calculate_suggested_price CONFIG s =
    let multiplier :=
      if Float.leb price_float (low_price_threshold CONFIG)
      then low_price_multiplier CONFIG
      else high_price_multiplier CONFIG in
    match Float.ceil (Float.mul (Float.mul price_float multiplier) (Float.of_Z 10)) with
    | Ok n =>
        match Float.int_truediv n 10 with
        | Ok suggested => Ok (Float.format1 false suggested)
        | Raise _ => Ok CANNOT_CALCULATE
        end
    | Raise _ => Ok CANNOT_CALCULATE
    end.
Proof.
  intros H. unfold calculate_suggested_price, suggested_price.
  rewrite H. cbn [mbind outcome_bind]. cbv zeta.
  destruct (Float.ceil _) as [n | e]; cbn [mbind outcome_bind try_except];
    [| reflexivity].
  destruct (Float.int_truediv n 10) as [q | e]; reflexivity.
Qed.

(** C8, as the code has it. For every input string
    [calculate_suggested_price] returns a string and raises nothing; the
    result depends only on the text before the first "(" ; when [float]
    does not accept the whole of that text, the result is the sentinel; and
    when [float] accepts it, the result is
    [ceil(price * multiplier * 10) / 10] computed on that float and written
    with one decimal, the multiplier chosen by comparing the float with the
    threshold, and the sentinel when [ceil] or the division raises. *)
Theorem calculate_suggested_price_never_raises (CONFIG : price_calculation) (s : str) :
  (exists r, calculate_suggested_price CONFIG s = Ok r)
  /\ calculate_suggested_price CONFIG s =
       calculate_suggested_price CONFIG (before_first 40%N s)
  /\ (forall e, Float.of_str (before_first 40%N s) = Raise e ->
        calculate_suggested_price CONFIG s = Ok CANNOT_CALCULATE)
  /\ (forall price_float,
        Float.of_str (before_first 40%N s) = Ok price_float ->
        let multiplier :=
          if Float.leb price_float (low_price_threshold CONFIG)
          then low_price_multiplier CONFIG
          else high_price_multiplier CONFIG in
        let scaled :=
          Float.mul (Float.mul price_float multiplier) (Float.of_Z 10) in
        (forall n suggested,
           Float.ceil scaled = Ok n ->
           Float.int_truediv n 10 = Ok suggested ->
           calculate_suggested_price CONFIG s
             = Ok (Float.format1 false suggested))
        /\ (forall e, Float.ceil scaled = Raise e ->
              calculate_suggested_price CONFIG s = Ok CANNOT_CALCULATE)
        /\ (forall n e,
              Float.ceil scaled = Ok n ->
              Float.int_truediv n 10 = Raise e ->
              calculate_suggested_price CONFIG s = Ok CANNOT_CALCULATE)).
Proof.
  split; [apply calculate_suggested_price_returns |].
  split; [| split; [apply suggested_price_unparsed |]].
  - unfold calculate_suggested_price.
    rewrite suggested_price_before_paren. reflexivity.
  - intros price_float H multiplier scaled.
    pose proof (suggested_price_computed CONFIG s price_float H) as Hc.
    cbv zeta in Hc. fold multiplier in Hc. fold scaled in Hc.
    split; [| split].
    + intros n suggested Hn Hq. rewrite Hc, Hn, Hq. reflexivity.
    + intros e He. rewrite Hc, He. reflexivity.
    + intros n e Hn Hq. rewrite Hc, Hn, Hq. reflexivity.
Qed.

Lemma calculate_suggested_price_never_raises_witness :
  calculate_suggested_price DEFAULT_CONFIG (u "1.0(需登录查看完整价格)")
    = Ok (u "1.5")
  /\ calculate_suggested_price DEFAULT_CONFIG (u "2.5(需登录查看完整价格)")
      = Ok (u "3.0")
  /\ calculate_suggested_price DEFAULT_CONFIG (u "free(需登录查看完整价格)")
      = Ok CANNOT_CALCULATE.
Proof.
  split; [| split].
  - apply (proj1 (proj2 (proj2 (proj2
             (calculate_suggested_price_never_raises DEFAULT_CONFIG
                (u "1.0(需登录查看完整价格)"))))
             (Float.of_Z 1) ltac:(vm_compute; reflexivity)) 15
             (Float.of_decimal false 15 (-1))).
    + vm_compute. reflexivity.
    + vm_compute. reflexivity.
  - apply (proj1 (proj2 (proj2 (proj2
             (calculate_suggested_price_never_raises DEFAULT_CONFIG
                (u "2.5(需登录查看完整价格)"))))
             (Float.of_decimal false 25 (-1)) ltac:(vm_compute; reflexivity)) 30
             (Float.of_Z 3)).
    + vm_compute. reflexivity.
    + vm_compute. reflexivity.
  - apply (proj1 (proj2 (proj2
             (calculate_suggested_price_never_raises DEFAULT_CONFIG
                (u "free(需登录查看完整价格)")))) ValueError).
    vm_compute. reflexivity.
Defined.

(** C8 as stated fails: the text before the "(" starts with the decimal
    12.5, whose suggestion is "15.0", and the result is the sentinel. *)
Lemma calculate_suggested_price_leading_decimal_unused :
  let input := u "12.5元(需登录查看完整价格)" in
  Spec.leading_decimal (before_first 40%N input) = Some (u "12.5")
  /\ calculate_suggested_price DEFAULT_CONFIG (u "12.5") = Ok (u "15.0")
  /\ calculate_suggested_price DEFAULT_CONFIG input = Ok CANNOT_CALCULATE.
Proof. repeat split; vm_compute; reflexivity. Qed.

End ReporterFacts.

(** ** The monitor *)

Module MonitorFacts.

Import Monitor Examples.




Lemma strip_prefix_app_r (t s r b : str) :
  strip_prefix t s = Some r -> strip_prefix t (s ++ b) = Some (r ++ b).
Proof.
  revert s. induction t as [| c t IH]; intros s; cbn [strip_prefix].
  - intros [= ->]. reflexivity.
  - destruct s as [| d s]; [discriminate |]. cbn [app].
    destruct (c =? d)%N; [apply IH | discriminate].
Qed.

Lemma contains_app_r (t s b : str) :
  contains t s = true -> contains t (s ++ b) = true.
Proof.
  induction s as [| c s IH].
  - cbn [contains]. destruct (strip_prefix t []) as [r |] eqn:E; [| discriminate].
    intros _. destruct t as [| d t]; [| discriminate].
    destruct b; reflexivity.
  - cbn [contains app].
    destruct (strip_prefix t (c :: s)) as [r |] eqn:E.
    + intros _. change (c :: s ++ b) with ((c :: s) ++ b).
      rewrite (strip_prefix_app_r _ _ _ b E). reflexivity.
    + intros H. rewrite (IH H).
      destruct (strip_prefix t (c :: s ++ b)); reflexivity.
Qed.

Lemma contains_app_l (t a s : str) :
  contains t s = true -> contains t (a ++ s) = true.
Proof.
  intros H. induction a as [| c a IH]; [exact H |].
  cbn [app contains]. rewrite IH.
  destruct (strip_prefix t (c :: a ++ s)); reflexivity.
Qed.

Lemma after_last_suffix (sep : N) (s : str) :
  exists a, s = a ++ Urllib.after_last sep s.
Proof.
  induction s as [| c s (a & IH)]; [exists []; reflexivity |].
  cbn [Urllib.after_last].
  destruct (existsb (N.eqb sep) s).
  - exists (c :: a). cbn [app]. rewrite <- IH. reflexivity.
  - destruct (c =? sep)%N; [exists [c] | exists []]; reflexivity.
Qed.

Lemma after_first_suffix (sep : N) (s r : str) :
  Urllib.after_first sep s = Some r -> exists a, s = a ++ r.
Proof.
  induction s as [| c s IH]; cbn [Urllib.after_first]; [discriminate |].
  destruct (c =? sep)%N.
  - intros [= ->]. exists [c]. reflexivity.
  - intros H. destruct (IH H) as (a & ->). exists (c :: a). reflexivity.
Qed.

Lemma before_first_prefix (sep : N) (s : str) :
  exists b, s = before_first sep s ++ b.
Proof.
  induction s as [| c s (b & IH)]; [exists []; reflexivity |].
  cbn [before_first]. destruct (c =? sep)%N.
  - exists (c :: s). reflexivity.
  - exists b. cbn [app]. rewrite <- IH. reflexivity.
Qed.

(** The host is a part of the network location. *)
Lemma host_within (n : str) : exists a b, n = a ++ Urllib.host n ++ b.
Proof.
  unfold Urllib.host.
  destruct (after_last_suffix 64%N n) as (a & Ha).
  destruct (Urllib.after_first 91%N (Urllib.after_last 64%N n)) as [br |] eqn:E.
  - destruct (after_first_suffix _ _ _ E) as (a' & Ha').
    destruct (before_first_prefix 93%N br) as (b & Hb).
    exists (a ++ a'), b. rewrite <- app_assoc, <- Hb, <- Ha'. exact Ha.
  - destruct (before_first_prefix 58%N (Urllib.after_last 64%N n)) as (b & Hb).
    exists a, b. rewrite <- Hb. exact Ha.
Qed.

Lemma contains_host (t n : str) :
  contains t (Urllib.host n) = true -> contains t n = true.
Proof.
  intros H. destruct (host_within n) as (a & b & Hn). rewrite Hn.
  apply contains_app_l, contains_app_r, H.
Qed.

Section WithUrllib.

Variable urlparse : str -> outcome parse_result.
Variable parse_qs : str -> gmap str (list str).



(** C10, as the code has it. [extract_item_id] returns the first value of
    the query parameter "id" when the network location of the URL, as
    [urlparse] gives it, contains "taobao.com", and only then: for a URL
    whose network location does not contain it the result is [None],
    whatever the query holds, and the monitor passes over the product,
    leaving history and changes as they are. A host that contains
    "taobao.com" is one way for the network location to contain it. *)
Theorem extract_item_id_taobao_only (url : str) (parsed : parse_result) :
  urlparse url = Ok parsed ->
  (contains (u "taobao.com") (netloc parsed) = false ->
     extract_item_id urlparse parse_qs url = Ok None
     /\ forall st product_name loaded pg timestamp,
          monitor_product urlparse parse_qs st product_name url loaded pg timestamp
            = Ok st)
  /\ (forall v vs,
        contains (u "taobao.com") (netloc parsed) = true ->
        parse_qs (query parsed) !! u "id" = Some (v :: vs) ->
        extract_item_id urlparse parse_qs url = Ok (Some v))
  /\ (forall v,
        extract_item_id urlparse parse_qs url = Ok (Some v) ->
        contains (u "taobao.com") (netloc parsed) = true
        /\ exists vs, parse_qs (query parsed) !! u "id" = Some (v :: vs))
  /\ (forall v vs,
        contains (u "taobao.com") (Urllib.host (netloc parsed)) = true ->
        parse_qs (query parsed) !! u "id" = Some (v :: vs) ->
        extract_item_id urlparse parse_qs url = Ok (Some v)).
Proof.
  intros Hp.
  assert (Hfound : forall v vs,
            contains (u "taobao.com") (netloc parsed) = true ->
            parse_qs (query parsed) !! u "id" = Some (v :: vs) ->
            extract_item_id urlparse parse_qs url = Ok (Some v)).
  { intros v vs Hc Hq. unfold extract_item_id. rewrite Hp.
    cbn [mbind outcome_bind]. rewrite Hc, Hq. reflexivity. }
  split; [| split; [exact Hfound | split]].
  - intros Hc.
    assert (Hnone : extract_item_id urlparse parse_qs url = Ok None).
    { unfold extract_item_id. rewrite Hp. cbn [mbind outcome_bind].
      rewrite Hc. reflexivity. }
    split; [exact Hnone |].
    intros st product_name loaded pg timestamp.
    unfold monitor_product. rewrite Hnone. reflexivity.
  - intros v. unfold extract_item_id. rewrite Hp. cbn [mbind outcome_bind].
    destruct (contains (u "taobao.com") (netloc parsed)); [| discriminate].
    destruct (parse_qs (query parsed) !! u "id") as [[| w ws] |];
      try discriminate.
    intros [= ->]. split; [reflexivity | eauto].
  - intros v vs Hh Hq.
    apply (Hfound v vs (contains_host _ _ Hh) Hq).
Qed.

End WithUrllib.


(** The rates the monitor shows for some pairs of prices. *)
Example change_rate_examples :
  change_rate_str (Some (u "10.0")) (u "12.0") = u "+20.0%"
  /\ change_rate_str (Some (u "12.0")) (u "10.0") = u "-16.7%"
  /\ change_rate_str (Some (u "10.0")) (u "10.00") = u "0%"
  /\ change_rate_str (Some (u "0")) (u "5") = UNKNOWN
  /\ change_rate_str (Some (u "0.00")) (u "5") = UNKNOWN
  /\ change_rate_str (Some (u "free")) (u "5") = UNKNOWN.
Proof. repeat split; vm_compute; reflexivity. Qed.

Lemma extract_item_id_taobao_only_witness :
  (extract_item_id Urllib.urlparse Urllib.parse_qs
     (u "https://shop.example.com/item.htm?id=123") = Ok None
   /\ forall st product_name loaded pg timestamp,
        monitor_product Urllib.urlparse Urllib.parse_qs st product_name
          (u "https://shop.example.com/item.htm?id=123") loaded pg timestamp
          = Ok st)
  /\ extract_item_id Urllib.urlparse Urllib.parse_qs
       (u "https://item.taobao.com:443/item.htm?id=123") = Ok (Some (u "123")).
Proof.
  split.
  - apply (proj1 (extract_item_id_taobao_only Urllib.urlparse Urllib.parse_qs
                    (u "https://shop.example.com/item.htm?id=123")
                    {| netloc := u "shop.example.com"; query := u "id=123" |}
                    ltac:(vm_compute; reflexivity))).
    vm_compute. reflexivity.
  - apply (proj2 (proj2 (proj2
             (extract_item_id_taobao_only Urllib.urlparse Urllib.parse_qs
                (u "https://item.taobao.com:443/item.htm?id=123")
                {| netloc := u "item.taobao.com:443"; query := u "id=123" |}
                ltac:(vm_compute; reflexivity))))
             (u "123") []).
    + vm_compute. reflexivity.
    + vm_compute. reflexivity.
Defined.

Example extract_item_id_examples :
  extract_item_id Urllib.urlparse Urllib.parse_qs
    (u "https://item.taobao.com/item.htm?spm=a1&id=123&id=456#top") = Ok (Some (u "123"))
  /\ extract_item_id Urllib.urlparse Urllib.parse_qs
       (u "https://item.taobao.com/item.htm?id=") = Ok None
  /\ extract_item_id Urllib.urlparse Urllib.parse_qs
       (u "https://detail.tmall.com/item.htm?id=123") = Ok None.
Proof. repeat split; vm_compute; reflexivity. Qed.

(** C10 as stated fails: the host of this URL is "evil.example", which
    does not contain "taobao.com"; the text before the "@" does, it is part
    of the network location, and the id is returned. *)
Lemma extract_item_id_accepts_userinfo :
  let url := u "https://taobao.com@evil.example/x?id=9" in
  Urllib.urlparse url
    = Ok {| netloc := u "taobao.com@evil.example"; query := u "id=9" |}
  /\ Urllib.host (u "taobao.com@evil.example") = u "evil.example"
  /\ contains (u "taobao.com") (u "evil.example") = false
  /\ extract_item_id Urllib.urlparse Urllib.parse_qs url = Ok (Some (u "9")).
Proof. repeat split; vm_compute; reflexivity. Qed.

End MonitorFacts.

(** * Further properties *)

(** ** The price history *)

Module HistoryMore.

Import History Observations.

Lemma writes_one_entry (h : gmap str entry)
    (timestamp item_id product_name current_price : str) :
  exists e',
    fst (check_price_change h timestamp item_id product_name current_price)
      = <[item_id := e']> h
    /\ name e' = product_name
    /\ price e' = current_price
    /\ last_update e' =
         match h !! item_id with
         | Some e => if str_eqb (price e) current_price then last_update e
                     else timestamp
         | None => timestamp
         end.
Proof.
  destruct (h !! item_id) as [e |] eqn:Hk.
  - destruct (decide (price e = current_price)) as [Heq | Hne].
    + rewrite (HistoryFacts.known_same_price h _ _ _ _ e Hk Heq).
      apply HistoryFacts.str_eqb_eq in Heq as Hb. rewrite Hb.
      exists (set_name product_name e). simpl. auto.
    + rewrite (HistoryFacts.known_other_price h _ _ _ _ e Hk Hne).
      apply HistoryFacts.str_eqb_neq in Hne as Hb. rewrite Hb.
      eexists. simpl. split; [reflexivity | auto].
  - rewrite (HistoryFacts.unknown_id h _ _ _ _ Hk).
    eexists. simpl. split; [reflexivity | auto].
Qed.

(** X1. [check_price_change] writes the entry of [item_id] and nothing
    else: the dictionary after the call is the one before with one entry
    stored under [item_id]. That entry has the supplied name and price; its
    timestamp is the clock reading when the id is new or the price text
    differs, and the timestamp it had otherwise. *)
Theorem check_price_change_writes_one_entry (h : gmap str entry)
    (timestamp item_id product_name current_price : str) :
  exists e',
    fst (check_price_change h timestamp item_id product_name current_price)
      = <[item_id := e']> h
    /\ name e' = product_name
    /\ price e' = current_price
    /\ last_update e' =
         match h !! item_id with
         | Some e => if str_eqb (price e) current_price then last_update e
                     else timestamp
         | None => timestamp
         end.
Proof. exact (writes_one_entry h timestamp item_id product_name current_price). Qed.

Lemma check_price_change_lookup (h : gmap str entry)
    (timestamp item_id product_name current_price id : str) :
  (price <$> fst (check_price_change h timestamp item_id product_name current_price) !! id)
  = if str_eqb item_id id then Some current_price else price <$> h !! id.
Proof.
  destruct (writes_one_entry h timestamp item_id
              product_name current_price) as (e' & -> & _ & Hp & _).
  unfold str_eqb. destruct (decide (item_id = id)) as [<- | Hne].
  - rewrite bool_decide_eq_true_2 by reflexivity.
    rewrite lookup_insert_eq. simpl. congruence.
  - rewrite bool_decide_eq_false_2 by assumption.
    rewrite lookup_insert_ne by assumption. reflexivity.
Qed.

(** X2. After any sequence of calls of [check_price_change] the price
    stored for an id is the price of the last call made for that id, and
    the price it had at the start when no call was made for it. *)
Theorem record_all_latest_price (observations : list observation)
    (h : gmap str entry) (id : str) :
  (price <$> record_all h observations !! id) =
    match last_observation id observations with
    | Some o => Some (current_price o)
    | None => price <$> h !! id
    end.
Proof.
  revert h. induction observations as [| o later IH]; intros h; simpl.
  - reflexivity.
  - rewrite IH. destruct (last_observation id later) as [o' |]; [reflexivity |].
    rewrite check_price_change_lookup.
    destruct (str_eqb (item_id o) id); reflexivity.
Qed.

End HistoryMore.

(** ** The scraper *)

Module ScraperMore.

Import Re Scraper.

Lemma try_strategies_no_digit_free (pg : page) (save_debug_info : bool) (p : str) :
  extract_price (Some pg) save_debug_info = Ok (p, false) -> p = NOT_FOUND.
Proof.
  unfold extract_price.
  destruct (if save_debug_info then html pg else Ok ()) as [[] | e];
    cbn [mbind outcome_bind]; [| discriminate].
  destruct (truthy (try_strategies pg extraction_strategies None));
    intros [= <-]; reflexivity.
Qed.

(** X3. Whatever the page, a result of [extract_price] with the success
    flag set carries a price that is digits, or digits, a point and digits,
    and [float] accepts it; a result without the flag carries one of the
    two messages. *)
Theorem extract_price_result_shape (self_page : option page)
    (save_debug_info : bool) (p : str) (success : bool) :
  extract_price self_page save_debug_info = Ok (p, success) ->
  (success = true ->
     Spec.decimal_text p
     /\ exists m k, Float.of_str p = Ok (Float.of_decimal false m k))
  /\ (success = false -> p = NOT_FOUND \/ p = BROWSER_MISSING).
Proof.
  intros H. split.
  - intros ->. destruct self_page as [pg |]; [| discriminate].
    pose proof (ScraperFacts.extract_price_decimal pg save_debug_info p H) as Hd.
    split; [assumption | apply FloatFacts.of_str_decimal; assumption].
  - intros ->. destruct self_page as [pg |].
    + left. apply (try_strategies_no_digit_free pg save_debug_info p H).
    + right. injection H as <-. reflexivity.
Qed.

Lemma extract_price_result_shape_witness :
  Spec.decimal_text (u "12.0")
  /\ exists m k, Float.of_str (u "12.0") = Ok (Float.of_decimal false m k).
Proof.
  apply (proj1 (extract_price_result_shape
                  (Some (Examples.script_only_page (u "12.0"))) true
                  (u "12.0") true ltac:(vm_compute; reflexivity))).
  reflexivity.
Defined.

(** X4. [extract_price] lets an exception out only when it was asked to
    save debug information and writing the page source failed; what a
    strategy raises never leaves it. *)
Theorem extract_price_raises_only_on_dump (pg : page) (save_debug_info : bool)
    (e : exn) :
  extract_price (Some pg) save_debug_info = Raise e
  <-> save_debug_info = true /\ html pg = Raise e.
Proof.
  unfold extract_price. split.
  - destruct save_debug_info.
    + destruct (html pg) as [[] | e']; cbn [mbind outcome_bind].
      * destruct (truthy _); discriminate.
      * intros [= ->]. auto.
    + cbn [mbind outcome_bind]. destruct (truthy _); discriminate.
  - intros [-> ->]. reflexivity.
Qed.

End ScraperMore.

(** ** The suggested price and the change rate *)

Module NumbersMore.

Import Reporter Monitor.

Lemma mul_not_finite (x y : Float.float) :
  (x = S754_nan \/ exists s, x = S754_infinity s) ->
  (exists s m e, y = S754_finite s m e) ->
  Float.mul x y = S754_nan \/ exists s, Float.mul x y = S754_infinity s.
Proof.
  intros [-> | [s ->]] (sy & m & e & ->); simpl; eauto.
Qed.

Lemma mul_by_any_not_finite (x y : Float.float) :
  (x = S754_nan \/ exists s, x = S754_infinity s) ->
  Float.mul x y = S754_nan \/ exists s, Float.mul x y = S754_infinity s.
Proof.
  intros [-> | [s ->]]; [left; reflexivity |].
  destruct y as [sy | sy | | sy m e]; simpl; eauto.
Qed.

Lemma ceil_not_finite (x : Float.float) :
  (x = S754_nan \/ exists s, x = S754_infinity s) ->
  exists e, Float.ceil x = Raise e.
Proof. intros [-> | [s ->]]; simpl; eauto. Qed.

Lemma not_finite_cannot_calculate (CONFIG : price_calculation) (s : str)
    (x : Float.float) :
  Float.of_str (before_first 40%N s) = Ok x ->
  (x = S754_nan \/ exists sg, x = S754_infinity sg) ->
  calculate_suggested_price CONFIG s = Ok CANNOT_CALCULATE.
Proof.
  intros Hx Hnf. unfold calculate_suggested_price, suggested_price.
  rewrite Hx. cbn [mbind outcome_bind].
  set (multiplier := if Float.leb x (low_price_threshold CONFIG)
                     then low_price_multiplier CONFIG
                     else high_price_multiplier CONFIG).
  pose proof (mul_by_any_not_finite x multiplier Hnf) as H1.
  assert (H10 : exists s m e, Float.of_Z 10 = S754_finite s m e).
  { eexists _, _, _. vm_compute. reflexivity. }
  pose proof (mul_not_finite _ _ H1 H10) as H2.
  destruct (ceil_not_finite _ H2) as [e He]. rewrite He. reflexivity.
Qed.

(** X5. A price text that [float] reads as infinity or as not-a-number
    ("inf", "nan", a decimal too large for a float) gets no suggested
    price: [calculate_suggested_price] returns the sentinel, with any
    configuration. *)
Theorem calculate_suggested_price_not_finite (CONFIG : price_calculation)
    (s : str) (x : Float.float) :
  Float.of_str (before_first 40%N s) = Ok x ->
  (x = S754_nan \/ exists sg, x = S754_infinity sg) ->
  calculate_suggested_price CONFIG s = Ok CANNOT_CALCULATE.
Proof. exact (not_finite_cannot_calculate CONFIG s x). Qed.

Lemma calculate_suggested_price_not_finite_witness :
  calculate_suggested_price DEFAULT_CONFIG (u "1e999(需登录查看完整价格)")
    = Ok CANNOT_CALCULATE.
Proof.
  apply (calculate_suggested_price_not_finite DEFAULT_CONFIG
           (u "1e999(需登录查看完整价格)") (S754_infinity false)).
  - vm_compute. reflexivity.
  - right. exists false. reflexivity.
Defined.

Lemma sub_self (s : bool) (m : positive) (e : Z) :
  Float.sub (S754_finite s m e) (S754_finite s m e) = S754_zero false.
Proof.
  unfold Float.sub, SFsub. rewrite Z.sub_diag. reflexivity.
Qed.

Lemma same_number_zero_rate (old new : str) (s : bool) (m : positive) (e : Z) :
  Float.of_str old = Ok (S754_finite s m e) ->
  Float.of_str new = Ok (S754_finite s m e) ->
  change_rate_str (Some old) new = u "0%".
Proof.
  intros Ho Hn. unfold change_rate_str, Float.truediv.
  rewrite Ho. cbn [mbind outcome_bind]. rewrite Hn.
  cbn [mbind outcome_bind Float.is_zero]. rewrite sub_self.
  assert (H100 : exists s' m' e', Float.of_Z 100 = S754_finite s' m' e').
  { eexists _, _, _. vm_compute. reflexivity. }
  destruct H100 as (s' & m' & e' & ->). reflexivity.
Qed.

(** X6. When the stored and the new price text differ but [float] reads
    them as the same finite number (as "10.0" and "10.00"), the change rate
    shown is "0%". *)
Theorem change_rate_same_number (old new : str) (s : bool) (m : positive) (e : Z) :
  Float.of_str old = Ok (S754_finite s m e) ->
  Float.of_str new = Ok (S754_finite s m e) ->
  change_rate_str (Some old) new = u "0%".
Proof. exact (same_number_zero_rate old new s m e). Qed.

Lemma change_rate_same_number_witness :
  change_rate_str (Some (u "10.0")) (u "10.00") = u "0%".
Proof.
  apply (change_rate_same_number (u "10.0") (u "10.00") false
           5629499534213120 (-49)).
  - vm_compute. reflexivity.
  - vm_compute. reflexivity.
Defined.

End NumbersMore.

(** ** Loading a page *)

Module LoaderMore.

Import Loader.

Lemma attempts_spec (page_get : nat -> outcome unit) (n : nat) :
  forall remaining attempt,
    (attempt + remaining = n)%nat ->
    (remaining = O -> attempt = O) ->
    (forall j, (j < attempt)%nat -> exists e, page_get j = Raise e) ->
    let '(result, calls, waits) := attempts page_get n attempt remaining in
    (calls <= n)%nat
    /\ waits = Nat.pred calls
    /\ (forall j, (j < Nat.pred calls)%nat -> exists e, page_get j = Raise e)
    /\ (result = true -> (0 < calls)%nat /\ exists v, page_get (Nat.pred calls) = Ok v)
    /\ (result = false ->
          calls = n /\ forall j, (j < n)%nat -> exists e, page_get j = Raise e).
Proof.
  induction remaining as [| remaining IH]; intros attempt Hsum Hzero Hfail; simpl.
  - specialize (Hzero eq_refl). subst attempt. simpl in Hsum. subst n.
    simpl. repeat split; auto; try lia; intros; lia.
  - destruct (page_get attempt) as [v | e] eqn:Hget.
    + simpl. repeat split; auto; try lia; try discriminate. eauto.
    + destruct (attempt <? n - 1)%nat eqn:Hlt.
      * apply Nat.ltb_lt in Hlt. apply IH; [lia | lia |].
        intros j Hj. destruct (Nat.eq_dec j attempt) as [-> | Hne]; [eauto |].
        apply Hfail. lia.
      * apply Nat.ltb_ge in Hlt. simpl.
        assert (Hlast : S attempt = n) by lia.
        repeat split; auto; try lia; try discriminate.
        intros j Hj. destruct (Nat.eq_dec j attempt) as [-> | Hne]; [eauto |].
        apply Hfail. lia.
Qed.

(** X7. With a browser at hand, [get_page] calls [page.get] at most
    [max_retries] times, one after the other, and stops at the first call
    that does not raise: it returns [True] exactly when one of the first
    [max_retries] calls succeeds, every call before the last one made has
    raised and was followed by one wait, and on [False] all [max_retries]
    calls were made and raised. *)
Theorem get_page_bounded_retry (page_present init_ok : bool)
    (page_get : nat -> outcome unit) (max_retries : nat) :
  page_present = true \/ init_ok = true ->
  let '(result, calls, waits) :=
    get_page page_present init_ok page_get max_retries in
  (calls <= max_retries)%nat
  /\ waits = Nat.pred calls
  /\ (forall j, (j < Nat.pred calls)%nat -> exists e, page_get j = Raise e)
  /\ (result = true <->
        exists i, (i < max_retries)%nat /\ exists v, page_get i = Ok v)
  /\ (result = true -> exists v, page_get (Nat.pred calls) = Ok v)
  /\ (result = false -> calls = max_retries).
Proof.
  intros Hb. unfold get_page.
  replace (negb page_present && negb init_ok) with false
    by (destruct Hb as [-> | ->]; [| destruct page_present]; reflexivity).
  pose proof (attempts_spec page_get max_retries max_retries O eq_refl
                (fun H => eq_refl) (fun j Hj => ltac:(lia))) as H.
  destruct (attempts page_get max_retries 0 max_retries) as [[result calls] waits].
  destruct H as (Hle & Hw & Hbefore & Htrue & Hfalse).
  repeat split; auto.
  - intros Hr. destruct (Htrue Hr) as [Hpos [v Hv]].
    exists (Nat.pred calls). split; [lia | eauto].
  - intros (i & Hi & v & Hv). destruct result; [reflexivity |].
    destruct (Hfalse eq_refl) as [_ Hall].
    destruct (Hall i Hi) as [e He]. congruence.
  - intros Hr. apply (Htrue Hr).
  - intros Hr. apply (Hfalse Hr).
Qed.

Lemma get_page_bounded_retry_witness :
  let '(result, calls, waits) :=
    get_page true false
      (fun n => match n with O => Raise BrowserError | _ => Ok () end) 2 in
  (calls <= 2)%nat
  /\ waits = Nat.pred calls
  /\ (forall j, (j < Nat.pred calls)%nat ->
        exists e, match j with O => Raise BrowserError | _ => Ok () end = Raise e)
  /\ (result = true <->
        exists i, (i < 2)%nat
                  /\ exists v, match i with O => Raise BrowserError | _ => Ok () end = Ok v)
  /\ (result = true ->
        exists v, match Nat.pred calls with O => Raise BrowserError | _ => Ok () end = Ok v)
  /\ (result = false -> calls = 2%nat).
Proof.
  apply (get_page_bounded_retry true false
           (fun n => match n with O => Raise BrowserError | _ => Ok () end) 2).
  left. reflexivity.
Defined.

End LoaderMore.

(** ** A monitoring run *)

Module RunMore.

Import Monitor Run.

Section WithUrllib.

Variable urlparse : str -> outcome parse_result.
Variable parse_qs : str -> gmap str (list str).

(** What one turn of the loop does, by cases. *)
Lemma monitor_product_cases (st : state) (product_name product_url : str)
    (is_loaded : bool) (pg : Scraper.page) (timestamp : str) :
  match extract_item_id urlparse parse_qs product_url with
  | Raise e =>
      monitor_product urlparse parse_qs st product_name product_url
        is_loaded pg timestamp = Raise e
  | Ok found =>
      exists st',
        monitor_product urlparse parse_qs st product_name product_url
          is_loaded pg timestamp = Ok st'
        /\ (st' = st
            \/ exists product_id current_price,
                 found = Some product_id
                 /\ Scraper.extract_price (Some pg) true = Ok (current_price, true)
                 /\ price_history st' =
                      fst (History.check_price_change (price_history st) timestamp
                             product_id product_name current_price)
                 /\ price_changes st' =
                      price_changes st ++
                      match price_history st !! product_id with
                      | None => []
                      | Some e =>
                          if str_eqb (History.price e) current_price then []
                          else [{| name := product_name; id := product_id;
                                   old_price := Some (History.price e);
                                   new_price := current_price;
                                   change_rate :=
                                     change_rate_str (Some (History.price e))
                                       current_price |}]
                      end)
  end.
Proof.
  unfold monitor_product.
  destruct (extract_item_id urlparse parse_qs product_url) as [found | e];
    [| reflexivity].
  cbn [mbind outcome_bind].
  destruct (truthy found) eqn:Ht; cbn [negb]; [| eauto].
  destruct found as [[| c cs] |]; try discriminate.
  cbn [from_option Datatypes.id].
  destruct is_loaded; cbn [negb]; [| eauto].
  destruct (Scraper.extract_price (Some pg) true) as [[current_price success] | e] eqn:Hex;
    cbn [mbind outcome_bind try_except]; [| eauto].
  destruct success; cbn [negb]; [| eauto].
  destruct (price_history st !! (c :: cs)) as [e |] eqn:Hk.
  - destruct (decide (History.price e = current_price)) as [Heq | Hne].
    + pose proof (HistoryFacts.known_same_price (price_history st) timestamp
                    (c :: cs) product_name current_price e Hk Heq) as Hc.
      rewrite Hc. cbn [History.is_new_item History.has_changed].
      eexists. split; [reflexivity |]. right.
      exists (c :: cs), current_price. cbn [price_history price_changes].
      apply HistoryFacts.str_eqb_eq in Heq as Hb. rewrite Hk, Hb, Hc, app_nil_r.
      repeat split; reflexivity.
    + pose proof (HistoryFacts.known_other_price (price_history st) timestamp
                    (c :: cs) product_name current_price e Hk Hne) as Hc.
      rewrite Hc.
      cbn [History.is_new_item History.has_changed History.old_price].
      eexists. split; [reflexivity |]. right.
      exists (c :: cs), current_price. cbn [price_history price_changes].
      apply HistoryFacts.str_eqb_neq in Hne as Hb. rewrite Hk, Hb, Hc.
      repeat split; reflexivity.
  - pose proof (HistoryFacts.unknown_id (price_history st) timestamp
                  (c :: cs) product_name current_price Hk) as Hc.
    rewrite Hc. cbn [History.is_new_item].
    eexists. split; [reflexivity |]. right.
    exists (c :: cs), current_price. cbn [price_history price_changes].
    rewrite Hk, Hc, app_nil_r.
    repeat split; reflexivity.
Qed.

Lemma monitor_products_app (st : state) (a b : list (str * str * visit)) :
  monitor_products urlparse parse_qs st (a ++ b) =
    (st' ← monitor_products urlparse parse_qs st a;
     monitor_products urlparse parse_qs st' b).
Proof.
  revert st. induction a as [| [[nm url] v] a IH]; intros st; simpl.
  - reflexivity.
  - destruct (monitor_product urlparse parse_qs st nm url (loaded v) (shown v) (clock v));
      cbn [mbind outcome_bind]; [apply IH | reflexivity].
Qed.

Lemma passed_over_unchanged (st : state) (product_name product_url : str) (v : visit) :
  passed_over urlparse parse_qs product_url v ->
  monitor_product urlparse parse_qs st product_name product_url
    (loaded v) (shown v) (clock v) = Ok st.
Proof.
  intros (found & Hid & Hcase). unfold monitor_product. rewrite Hid.
  cbn [mbind outcome_bind].
  destruct (truthy found) eqn:Ht; cbn [negb]; [| reflexivity].
  destruct Hcase as [Hf | [Hl | [[message Hm] | [e He]]]].
  - discriminate.
  - rewrite Hl. reflexivity.
  - destruct (loaded v); cbn [negb]; [| reflexivity]. rewrite Hm. reflexivity.
  - destruct (loaded v); cbn [negb]; [| reflexivity]. rewrite He. reflexivity.
Qed.

(** X8. A product that is passed over (no id in its URL, a page that does
    not load, no price found, or an exception while extracting) has no
    effect on the history and on the list of changes: the loop gives what
    it gives on the list without that product. *)
Theorem monitor_products_passed_over (st : state)
    (before after : list (str * str * visit))
    (product_name product_url : str) (v : visit) :
  passed_over urlparse parse_qs product_url v ->
  monitor_products urlparse parse_qs st
    (before ++ (product_name, product_url, v) :: after)
  = monitor_products urlparse parse_qs st (before ++ after).
Proof.
  intros Hp. rewrite !monitor_products_app.
  destruct (monitor_products urlparse parse_qs st before) as [st' | e];
    cbn [mbind outcome_bind]; [| reflexivity].
  cbn [monitor_products]. rewrite (passed_over_unchanged st' _ _ v Hp).
  reflexivity.
Qed.

Lemma last_event_app (id : str) (events : list change_event) (ev : change_event) :
  last_event id (events ++ [ev]) =
    if str_eqb (Monitor.id ev) id then Some ev else last_event id events.
Proof.
  induction events as [| ev' events IH]; simpl.
  - reflexivity.
  - rewrite IH. destruct (str_eqb (Monitor.id ev) id); [reflexivity |].
    reflexivity.
Qed.

Lemma monitor_product_consistent (st st' : state) (product_name product_url : str)
    (is_loaded : bool) (pg : Scraper.page) (timestamp : str) :
  consistent st ->
  monitor_product urlparse parse_qs st product_name product_url
    is_loaded pg timestamp = Ok st' ->
  consistent st'.
Proof.
  intros [Hall Hlast] Hstep.
  pose proof (monitor_product_cases st product_name product_url is_loaded pg
                timestamp) as Hcases.
  destruct (extract_item_id urlparse parse_qs product_url) as [found | e];
    [| congruence].
  destruct Hcases as (st'' & Hst'' & Hcase).
  assert (st'' = st') by congruence. subst st''.
  destruct Hcase as [-> | (pid & cp & _ & _ & Hh & Hc)]; [split; assumption |].
  destruct (HistoryMore.writes_one_entry (price_history st) timestamp pid
              product_name cp) as (e' & He' & _ & Hprice & _).
  rewrite He' in Hh.
  assert (Hother : forall id, pid <> id ->
            price_history st' !! id = price_history st !! id).
  { intros id Hne. rewrite Hh. apply lookup_insert_ne. assumption. }
  assert (Hself : price_history st' !! pid = Some e').
  { rewrite Hh. apply lookup_insert_eq. }
  destruct (price_history st !! pid) as [e0 |] eqn:Hk.
  - destruct (str_eqb (History.price e0) cp) eqn:Hb.
    + rewrite app_nil_r in Hc. split; rewrite Hc; [assumption |].
      intros id ev Hev. destruct (Hlast id ev Hev) as (e & Hid & Hp).
      destruct (decide (pid = id)) as [<- | Hne].
      * exists e'. split; [assumption |].
        apply HistoryFacts.str_eqb_eq in Hb. congruence.
      * exists e. rewrite (Hother id Hne). auto.
    + split; rewrite Hc.
      * apply Forall_app. split; [assumption |].
        constructor; [| constructor]. cbn [old_price new_price].
        exists (History.price e0). split; [reflexivity |].
        apply HistoryFacts.str_eqb_neq. assumption.
      * intros id ev. rewrite last_event_app. cbn [Monitor.id].
        unfold str_eqb at 1. destruct (decide (pid = id)) as [<- | Hne].
        -- rewrite bool_decide_eq_true_2 by reflexivity.
           intros [= <-]. exists e'. auto.
        -- rewrite bool_decide_eq_false_2 by assumption.
           intros Hev. destruct (Hlast id ev Hev) as (e & Hid & Hp).
           exists e. rewrite (Hother id Hne). auto.
  - rewrite app_nil_r in Hc. split; rewrite Hc; [assumption |].
    intros id ev Hev. destruct (Hlast id ev Hev) as (e & Hid & Hp).
    destruct (decide (pid = id)) as [<- | Hne]; [congruence |].
    exists e. rewrite (Hother id Hne). auto.
Qed.

Lemma monitor_products_consistent (todo : list (str * str * visit)) :
  forall st st',
    consistent st ->
    monitor_products urlparse parse_qs st todo = Ok st' ->
    consistent st'.
Proof.
  induction todo as [| [[nm url] v] todo IH]; intros st st' Hc Hrun; simpl in Hrun.
  - congruence.
  - destruct (monitor_product urlparse parse_qs st nm url (loaded v) (shown v) (clock v))
      as [st1 |] eqn:Hstep; cbn [mbind outcome_bind] in Hrun; [| discriminate].
    apply (IH st1 st'); [| assumption].
    apply (monitor_product_consistent st st1 nm url _ _ _ Hc Hstep).
Qed.

(** X9. After the loop over any list of products, started with an empty
    list of changes, the changes agree with the history (writing the log
    being taken to succeed): every change carries an old price that
    differs, as text, from its new price, and for every id that has changes
    the price in the history is the new price of the last of them. *)
Theorem monitor_products_changes_agree (h : gmap str History.entry)
    (todo : list (str * str * visit)) (st' : state) :
  monitor_products urlparse parse_qs
    {| price_history := h; price_changes := [] |} todo = Ok st' ->
  Forall (fun ev => exists old, old_price ev = Some old /\ old <> new_price ev)
         (price_changes st')
  /\ forall id ev,
       last_event id (price_changes st') = Some ev ->
       exists e, price_history st' !! id = Some e
                 /\ History.price e = new_price ev.
Proof.
  intros Hrun.
  apply (monitor_products_consistent todo
           {| price_history := h; price_changes := [] |} st');
    [| assumption].
  split; [constructor | intros id ev; discriminate].
Qed.

Lemma monitor_product_raises (st : state) (product_name product_url : str)
    (is_loaded : bool) (pg : Scraper.page) (timestamp : str) :
  (exists st', monitor_product urlparse parse_qs st product_name product_url
                 is_loaded pg timestamp = Ok st')
  <-> exists found, extract_item_id urlparse parse_qs product_url = Ok found.
Proof.
  pose proof (monitor_product_cases st product_name product_url is_loaded pg
                timestamp) as Hcases.
  destruct (extract_item_id urlparse parse_qs product_url) as [found | e].
  - destruct Hcases as (st' & Hst' & _). split; eauto.
  - rewrite Hcases. split; intros [x Hx]; discriminate.
Qed.

Lemma monitor_products_returns (todo : list (str * str * visit)) :
  forall st,
    (exists st', monitor_products urlparse parse_qs st todo = Ok st')
    <-> Forall (fun product =>
                  exists found,
                    extract_item_id urlparse parse_qs (snd (fst product)) = Ok found)
               todo.
Proof.
  induction todo as [| [[nm url] v] todo IH]; intros st; simpl.
  - split; [constructor | eauto].
  - split.
    + intros [st' Hrun].
      destruct (monitor_product urlparse parse_qs st nm url (loaded v) (shown v) (clock v))
        as [st1 |] eqn:Hstep; cbn [mbind outcome_bind] in Hrun; [| discriminate].
      constructor.
      * apply (monitor_product_raises st nm url (loaded v) (shown v) (clock v)). eauto.
      * apply (IH st1). eauto.
    + intros Hall. inversion Hall as [| x l Hx Hl]; subst.
      apply (monitor_product_raises st nm url (loaded v) (shown v) (clock v)) in Hx.
      destruct Hx as [st1 Hst1]. rewrite Hst1. cbn [mbind outcome_bind].
      apply (IH st1). assumption.
Qed.

Lemma combine_visits (products : list (str * str)) (visits : nat -> visit) :
  forall start,
    List.map fst (combine products (List.map visits (seq start (length products))))
    = products.
Proof.
  induction products as [| p products IH]; intros start; simpl.
  - reflexivity.
  - rewrite IH. reflexivity.
Qed.

(** X10. [monitor_prices] comes to [save_history] exactly when the browser
    starts, the product file is read, and [extract_item_id] raises for no
    product of the file (writing the log being taken to succeed). One URL
    that [urlparse] refuses ends the run before the history is written,
    whatever was recorded for the products before it. *)
Theorem monitor_prices_saves_iff (browser_ok : bool)
    (product_file : outcome (list str)) (h : gmap str History.entry)
    (visits : nat -> visit) (wx_push : bool) (spt : option str) :
  (exists written,
     saved (monitor_prices urlparse parse_qs browser_ok product_file h visits
              wx_push spt) = Some written)
  <-> browser_ok = true
      /\ exists lines,
           product_file = Ok lines
           /\ Forall (fun product =>
                        exists found,
                          extract_item_id urlparse parse_qs (snd product) = Ok found)
                     (products_of_lines lines).
Proof.
  unfold monitor_prices.
  destruct browser_ok; cbn [negb].
  2: { split; [intros [w Hw]; discriminate | intros [Hf _]; discriminate]. }
  destruct product_file as [lines | e]; cbn [mbind outcome_bind].
  2: { split; [intros [w Hw]; discriminate | intros (_ & l & Hl & _); discriminate]. }
  set (products := products_of_lines lines).
  set (todo := combine products (List.map visits (seq 0 (length products)))).
  pose proof (monitor_products_returns todo
                {| price_history := h; price_changes := [] |}) as Hret.
  assert (Hmap : Forall (fun product =>
                    exists found,
                      extract_item_id urlparse parse_qs (snd (fst product)) = Ok found)
                   todo
                 <-> Forall (fun product =>
                       exists found,
                         extract_item_id urlparse parse_qs (snd product) = Ok found)
                      products).
  { rewrite <- (List.Forall_map fst
                    (fun product =>
                       exists found,
                         extract_item_id urlparse parse_qs (snd product) = Ok found)
                    todo).
    subst todo. rewrite combine_visits. reflexivity. }
  rewrite Hmap in Hret. clear Hmap.
  split.
  - intros [w Hw]. split; [reflexivity |]. exists lines. split; [reflexivity |].
    apply Hret.
    destruct (monitor_products urlparse parse_qs _ todo) as [st' | e];
      [eauto | discriminate].
  - intros (_ & l & [= <-] & Hall). apply Hret in Hall.
    destruct Hall as [st' Hst']. fold products. fold todo. rewrite Hst'.
    cbn [saved]. eauto.
Qed.

End WithUrllib.

Lemma monitor_products_passed_over_witness :
  monitor_products Urllib.urlparse Urllib.parse_qs MoreExamples.start_of_run
    ([MoreExamples.cup_product] ++
     (u "mug", u "https://shop.example.com/item.htm?id=77",
      MoreExamples.visit_with_price (u "5.0") (u "2024-05-02 08:00:05")) :: [])
  = monitor_products Urllib.urlparse Urllib.parse_qs MoreExamples.start_of_run
      ([MoreExamples.cup_product] ++ []).
Proof.
  apply (monitor_products_passed_over Urllib.urlparse Urllib.parse_qs).
  exists None. split; [vm_compute; reflexivity |]. left. reflexivity.
Defined.

Lemma monitor_products_changes_agree_witness :
  Forall (fun ev => exists old, old_price ev = Some old /\ old <> new_price ev)
         (price_changes MoreExamples.end_of_run)
  /\ forall id ev,
       last_event id (price_changes MoreExamples.end_of_run) = Some ev ->
       exists e, price_history MoreExamples.end_of_run !! id = Some e
                 /\ History.price e = new_price ev.
Proof.
  apply (monitor_products_changes_agree Urllib.urlparse Urllib.parse_qs
           Examples.cup_history
           [MoreExamples.cup_product; MoreExamples.foreign_product]).
  vm_compute. reflexivity.
Defined.

(** A run with a URL that [urlparse] refuses writes nothing. *)
Example monitor_prices_refused_url :
  saved (monitor_prices Urllib.urlparse Urllib.parse_qs true
           (Ok [u "cup,https://item.taobao.com/item.htm?id=123";
                u "mug,http://[item.taobao.com/item.htm?id=77"])
           Examples.cup_history
           (fun _ => MoreExamples.visit_with_price (u "12.0") (u "2024-05-02 08:00:00"))
           false None) = None.
Proof. vm_compute. reflexivity. Qed.

End RunMore.

(** ** From the product cards to the product file and back *)

Module ExtractorMore.

Import Run Extractor.

Lemma no_break_cons (c : N) (s : str) :
  no_break (c :: s) = true ->
  (c =? 10)%N = false /\ (c =? 13)%N = false /\ no_break s = true.
Proof.
  unfold no_break. cbn [forallb]. intros H.
  apply andb_true_iff in H. destruct H as [Hc Hs].
  apply negb_true_iff, orb_false_iff in Hc. tauto.
Qed.

Lemma universal_newlines_line (s rest : str) :
  no_break s = true ->
  universal_newlines (s ++ 10%N :: rest) = s ++ 10%N :: universal_newlines rest.
Proof.
  induction s as [| c s IH]; intros H.
  - reflexivity.
  - apply no_break_cons in H. destruct H as (_ & H13 & Hs).
    cbn [app universal_newlines]. rewrite H13, (IH Hs). reflexivity.
Qed.

Lemma lines_of_line (s rest : str) :
  no_break s = true ->
  lines_of (s ++ 10%N :: rest) = (s ++ [10%N]) :: lines_of rest.
Proof.
  induction s as [| c s IH]; intros H.
  - reflexivity.
  - apply no_break_cons in H. destruct H as (H10 & _ & Hs).
    cbn [app lines_of]. rewrite H10, (IH Hs). reflexivity.
Qed.

Lemma no_break_app (a b : str) :
  no_break (a ++ b) = no_break a && no_break b.
Proof. unfold no_break. apply forallb_app. Qed.

Lemma lstrip_solid (s : str) :
  isspace (hd 32%N s) = false -> lstrip s = s.
Proof.
  destruct s as [| c s]; simpl; [reflexivity |]. intros ->. reflexivity.
Qed.

Lemma rev_last_first (s : str) :
  s <> [] -> rev s = List.last s 32%N :: rev (removelast s).
Proof.
  intros H. rewrite (app_removelast_last 32%N H) at 1.
  rewrite rev_app_distr. reflexivity.
Qed.

(** Stripping a line that starts and ends with other characters than
    spaces takes away its newline and nothing else. *)
Lemma strip_line (a : str) :
  isspace (hd 32%N a) = false ->
  isspace (List.last a 32%N) = false ->
  strip (a ++ [10%N]) = a.
Proof.
  intros Hh Hl.
  assert (Hne : a <> []) by (intros ->; discriminate).
  unfold strip.
  rewrite (lstrip_solid (a ++ [10%N]))
    by (destruct a as [| c a]; [congruence | exact Hh]).
  rewrite rev_app_distr. cbn [rev app lstrip].
  change (isspace 10%N) with true. cbv iota.
  rewrite (lstrip_solid (rev a))
    by (rewrite (rev_last_first a Hne); exact Hl).
  apply rev_involutive.
Qed.

Lemma before_first_app (sep : N) (t rest : str) :
  forallb (fun c => negb (c =? sep)%N) t = true ->
  before_first sep (t ++ sep :: rest) = t
  /\ Urllib.after_first sep (t ++ sep :: rest) = Some rest.
Proof.
  induction t as [| c t IH]; cbn [forallb app before_first Urllib.after_first];
    intros H.
  - rewrite N.eqb_refl. auto.
  - apply andb_true_iff in H. destruct H as [Hc Ht].
    apply negb_true_iff in Hc. rewrite Hc.
    destruct (IH Ht) as [-> ->]. auto.
Qed.

Lemma last_app_nonempty (a b : str) :
  b <> [] -> List.last (a ++ b) 32%N = List.last b 32%N.
Proof.
  intros Hb. induction a as [| c a IH]; [reflexivity |].
  cbn [app]. destruct (a ++ b) eqn:E.
  - destruct a; [simpl in E; congruence | discriminate].
  - rewrite <- IH. reflexivity.
Qed.

Lemma product_of_written_line (product : str * str) :
  tidy product = true ->
  product_of_line (line_of product ++ [10%N]) = Some product.
Proof.
  destruct product as [t url]. unfold tidy, line_of. cbn [fst snd].
  intros H. repeat (apply andb_true_iff in H; destruct H as [H ?]).
  apply negb_true_iff in H. rename H into Hhead.
  match goal with Hl : negb (isspace (List.last url _)) = true |- _ =>
    apply negb_true_iff in Hl; rename Hl into Hlast end.
  match goal with Hc : forallb (fun c => negb (c =? 44)%N) t = true |- _ =>
    rename Hc into Hcomma end.
  assert (Hu : url <> []) by (intros ->; discriminate).
  assert (Ht : t <> []) by (intros ->; discriminate).
  change (u ",") with [44%N]. cbn [app].
  unfold product_of_line.
  rewrite strip_line.
  - destruct (before_first_app 44%N t url Hcomma) as [Hb Ha].
    destruct t as [| c t]; [congruence |].
    cbn [app] in *. rewrite Ha, Hb. reflexivity.
  - destruct t as [| c t]; [congruence | exact Hhead].
  - rewrite last_app_nonempty by discriminate.
    change (44%N :: url) with ([44%N] ++ url).
    rewrite last_app_nonempty by assumption. exact Hlast.
Qed.

Lemma tidy_no_break (product : str * str) :
  tidy product = true -> no_break (line_of product) = true.
Proof.
  destruct product as [t url]. unfold tidy, line_of. cbn [fst snd].
  intros H. repeat (apply andb_true_iff in H; destruct H as [H ?]).
  rewrite !no_break_app.
  repeat (apply andb_true_iff; split); auto.
Qed.

Lemma written_products_read_back (products : list (str * str)) :
  Forall (fun product => tidy product = true) products ->
  products_of_lines (read_lines (file_text (List.map line_of products)))
  = products.
Proof.
  unfold read_lines.
  induction 1 as [| product products Hp Hps IH]; [reflexivity |].
  cbn [List.map file_text].
  rewrite (universal_newlines_line _ _ (tidy_no_break product Hp)).
  rewrite (lines_of_line _ _ (tidy_no_break product Hp)).
  cbn [products_of_lines].
  rewrite (product_of_written_line product Hp), IH. reflexivity.
Qed.

(** X11. The product file carries names and URLs back to the monitor:
    when every name starts with a character that is no space and has no
    comma, every URL ends with a character that is no space, and neither
    has a line break, the lines that [extract_product_info] writes are
    read by [monitor_prices] as the same products in the same order. *)
Theorem product_file_round_trip (products : list (str * str)) :
  Forall (fun product => tidy product = true) products ->
  products_of_lines (read_lines (file_text (List.map line_of products)))
  = products.
Proof. exact (written_products_read_back products). Qed.

Lemma product_file_round_trip_witness :
  products_of_lines
    (read_lines
       (file_text
          (List.map line_of
             [(u "保温杯 500ml", u "https://item.taobao.com/item.htm?id=123");
              (u "mug", u "https://item.taobao.com/item.htm?id=77")])))
  = [(u "保温杯 500ml", u "https://item.taobao.com/item.htm?id=123");
     (u "mug", u "https://item.taobao.com/item.htm?id=77")].
Proof.
  apply (product_file_round_trip
           [(u "保温杯 500ml", u "https://item.taobao.com/item.htm?id=123");
            (u "mug", u "https://item.taobao.com/item.htm?id=77")]).
  repeat constructor.
Defined.

(** A name with a comma does not come back: the monitor takes the text
    after the first comma for the URL and finds no product id in it. *)
Example product_file_comma_in_name :
  products_of_lines
    (read_lines
       (file_text
          [line_of (u "cup, blue", u "https://item.taobao.com/item.htm?id=123")]))
  = [(u "cup", u " blue,https://item.taobao.com/item.htm?id=123")]
  /\ Monitor.extract_item_id Urllib.urlparse Urllib.parse_qs
       (u " blue,https://item.taobao.com/item.htm?id=123") = Ok None.
Proof. split; vm_compute; reflexivity. Qed.

Lemma before_first_none (sep : N) (s : str) :
  forallb (fun c => negb (c =? sep)%N) s = true -> before_first sep s = s.
Proof.
  induction s as [| c s IH]; cbn [forallb before_first]; intros H; [reflexivity |].
  apply andb_true_iff in H. destruct H as [Hc Hs].
  apply negb_true_iff in Hc. rewrite Hc, (IH Hs). reflexivity.
Qed.

Lemma digits_avoid (c0 : N) (s : str) :
  (c0 < 48 \/ 57 < c0)%N ->
  forallb Float.ascii_digit s = true ->
  forallb (fun c => negb (c =? c0)%N) s = true.
Proof.
  intros Hc0. induction s as [| c s IH]; cbn [forallb]; [reflexivity |].
  intros H. apply andb_true_iff in H. destruct H as [Hc Hs].
  apply FloatFacts.ascii_digit_range in Hc.
  rewrite (IH Hs), andb_true_r. apply negb_true_iff, N.eqb_neq. lia.
Qed.

(** The text after the first "id=". *)
Lemma after_text_id (pre tail : str) :
  contains [105; 100; 61]%N pre = false ->
  after_text [105; 100; 61]%N (pre ++ 105%N :: 100%N :: 61%N :: tail) = Some tail.
Proof.
  induction pre as [| c pre IH]; intros Hc.
  - reflexivity.
  - cbn [contains] in Hc.
    destruct (strip_prefix [105; 100; 61]%N (c :: pre)) eqn:Hs; [discriminate |].
    destruct pre as [| x pre]; [| specialize (IH Hc)].
    + cbn [app after_text strip_prefix].
      destruct (105 =? c)%N; reflexivity.
    + cbn [app after_text]. cbn [app] in IH.
      replace (strip_prefix [105; 100; 61]%N
                 (c :: x :: pre ++ 105%N :: 100%N :: 61%N :: tail))
        with (@None str); [exact IH |].
      symmetry. cbn [strip_prefix] in *.
      destruct (105 =? c)%N; [| reflexivity].
      destruct (100 =? x)%N; [| reflexivity].
      destruct pre as [| y pre]; cbn [app].
      * reflexivity.
      * destruct (61 =? y)%N; [discriminate | reflexivity].
Qed.

Lemma before_text_digits (id rest : str) :
  forallb Float.ascii_digit id = true ->
  before_text [105; 100; 61]%N (id ++ rest)
  = id ++ before_text [105; 100; 61]%N rest.
Proof.
  induction id as [| c id IH]; cbn [forallb app]; intros H; [reflexivity |].
  apply andb_true_iff in H. destruct H as [Hc Hs].
  apply FloatFacts.ascii_digit_range in Hc.
  cbn [before_text strip_prefix].
  replace (105 =? c)%N with false by (symmetry; apply N.eqb_neq; lia).
  rewrite (IH Hs). reflexivity.
Qed.

Lemma item_id_of_link (pre id rest : str) :
  contains (u "id=") pre = false ->
  forallb Float.ascii_digit id = true ->
  rest = [] \/ (exists more, rest = 38%N :: more) ->
  item_id_of (pre ++ u "id=" ++ id ++ rest) = Some id.
Proof.
  change (u "id=") with [105; 100; 61]%N.
  intros Hpre Hd Hrest. unfold item_id_of.
  change (u "id=") with [105; 100; 61]%N. cbn [app].
  rewrite (after_text_id pre (id ++ rest) Hpre).
  rewrite (before_text_digits id rest Hd). f_equal.
  pose proof (digits_avoid 38%N id ltac:(lia) Hd) as H38.
  destruct Hrest as [-> | [more ->]].
  - cbn [before_text strip_prefix]. rewrite app_nil_r.
    apply before_first_none. assumption.
  - cbn [before_text strip_prefix]. cbn [N.eqb Pos.eqb].
    apply (before_first_app 38%N id _ H38).
Qed.

Lemma split_on_none (sep : N) (s : str) :
  forallb (fun c => negb (c =? sep)%N) s = true -> Urllib.split_on sep s = [s].
Proof.
  induction s as [| c s IH]; cbn [forallb Urllib.split_on]; intros H;
    [reflexivity |].
  apply andb_true_iff in H. destruct H as [Hc Hs].
  apply negb_true_iff in Hc. rewrite Hc, (IH Hs). reflexivity.
Qed.

Lemma urlparse_item (id : str) :
  forallb Float.ascii_digit id = true ->
  Urllib.urlparse (ITEM_URL ++ id) =
    Ok {| Monitor.netloc := u "item.taobao.com";
          Monitor.query := [105; 100; 61]%N ++ id |}.
Proof.
  intros Hd.
  let e := eval vm_compute in ITEM_URL in change ITEM_URL with e.
  let e := eval vm_compute in (u "item.taobao.com") in
    change (u "item.taobao.com") with e.
  unfold Urllib.urlparse, Urllib.drop_scheme.
  cbn [app Urllib.after_first before_first].
  simpl.
  rewrite (before_first_none 35%N id (digits_avoid 35%N id ltac:(lia) Hd)).
  reflexivity.
Qed.

Lemma parse_qs_item (id : str) :
  id <> [] ->
  forallb Float.ascii_digit id = true ->
  Urllib.parse_qs ([105; 100; 61]%N ++ id) !! u "id" = Some [id].
Proof.
  intros Hne Hd. unfold Urllib.parse_qs.
  rewrite split_on_none.
  - cbn [fold_left]. unfold Urllib.add_field.
    cbn [app Urllib.after_first before_first N.eqb Pos.eqb].
    destruct id as [| c id]; [congruence |].
    change (u "id") with [105; 100]%N.
    rewrite lookup_insert_eq, lookup_empty. reflexivity.
  - cbn [app forallb N.eqb Pos.eqb negb andb].
    apply (digits_avoid 38%N id ltac:(lia) Hd).
Qed.

Lemma extract_item_id_item (id : str) :
  id <> [] ->
  forallb Float.ascii_digit id = true ->
  Monitor.extract_item_id Urllib.urlparse Urllib.parse_qs (ITEM_URL ++ id)
  = Ok (Some id).
Proof.
  intros Hne Hd. unfold Monitor.extract_item_id.
  rewrite (urlparse_item id Hd). cbn [mbind outcome_bind Monitor.netloc Monitor.query].
  replace (contains (u "taobao.com") (u "item.taobao.com")) with true
    by (vm_compute; reflexivity).
  rewrite (parse_qs_item id Hne Hd). reflexivity.
Qed.

(** X12. The id goes from the link of a card to the monitor unchanged:
    when the first "id=" of the link is followed by a number and then by
    the end of the link or by "&", [extract_product_info] writes the URL
    "https://item.taobao.com/item.htm?id=" with that number, and
    [extract_item_id] (with the library's [urlparse] and [parse_qs]) reads
    the number back from it. *)
Theorem link_id_reaches_monitor (pre id rest : str) :
  contains (u "id=") pre = false ->
  id <> [] ->
  forallb Float.ascii_digit id = true ->
  rest = [] \/ (exists more, rest = 38%N :: more) ->
  simplified_url (pre ++ u "id=" ++ id ++ rest) = ITEM_URL ++ id
  /\ Monitor.extract_item_id Urllib.urlparse Urllib.parse_qs
       (simplified_url (pre ++ u "id=" ++ id ++ rest)) = Ok (Some id).
Proof.
  intros Hpre Hne Hd Hrest.
  assert (Hs : simplified_url (pre ++ u "id=" ++ id ++ rest) = ITEM_URL ++ id).
  { unfold simplified_url. rewrite (item_id_of_link pre id rest Hpre Hd Hrest).
    reflexivity. }
  split; [exact Hs |]. rewrite Hs. apply extract_item_id_item; assumption.
Qed.

Lemma link_id_reaches_monitor_witness :
  simplified_url
    (u "//item.taobao.com/item.htm?spm=a21n57&" ++ u "id=" ++ u "123"
       ++ u "&skuId=5")
  = ITEM_URL ++ u "123"
  /\ Monitor.extract_item_id Urllib.urlparse Urllib.parse_qs
       (simplified_url
          (u "//item.taobao.com/item.htm?spm=a21n57&" ++ u "id=" ++ u "123"
             ++ u "&skuId=5")) = Ok (Some (u "123")).
Proof.
  apply (link_id_reaches_monitor
           (u "//item.taobao.com/item.htm?spm=a21n57&") (u "123") (u "&skuId=5")).
  - vm_compute. reflexivity.
  - vm_compute. discriminate.
  - vm_compute. reflexivity.
  - right. exists (u "skuId=5"). vm_compute. reflexivity.
Defined.

(** The id is what follows the first "id=", also when that is the end of
    another parameter's name. *)
Example link_id_of_other_parameter :
  item_id_of (u "https://item.taobao.com/item.htm?uid=7&id=123") = Some (u "7").
Proof. vm_compute. reflexivity. Qed.

Lemma lstrip_head (s : str) :
  lstrip s <> [] -> isspace (hd 32%N (lstrip s)) = false.
Proof.
  induction s as [| c s IH]; cbn [lstrip]; [congruence |].
  destruct (isspace c) eqn:E; [exact IH |]. intros _. exact E.
Qed.

Lemma last_lstrip (s : str) :
  lstrip s <> [] -> List.last (lstrip s) 32%N = List.last s 32%N.
Proof.
  induction s as [| c s IH]; cbn [lstrip]; [congruence |].
  destruct (isspace c) eqn:E; [| reflexivity].
  intros H. rewrite (IH H).
  destruct s as [| d s]; [simpl in H; congruence | reflexivity].
Qed.

Lemma last_rev_head (s : str) : List.last (rev s) 32%N = hd 32%N s.
Proof.
  destruct s as [| c s]; [reflexivity |]. cbn [rev hd]. apply last_last.
Qed.

Lemma hd_rev_last (s : str) : hd 32%N (rev s) = List.last s 32%N.
Proof.
  rewrite <- (rev_involutive s) at 2. symmetry. apply last_rev_head.
Qed.

(** What [strip] leaves starts with a character that is no space. *)
Lemma strip_head (s : str) :
  strip s <> [] -> isspace (hd 32%N (strip s)) = false.
Proof.
  unfold strip. intros H.
  assert (H1 : lstrip (rev (lstrip s)) <> []) by (intros E; rewrite E in H; auto).
  assert (H2 : lstrip s <> []).
  { intros E. rewrite E in H1. simpl in H1. congruence. }
  rewrite hd_rev_last, (last_lstrip _ H1), last_rev_head.
  apply lstrip_head. assumption.
Qed.

Lemma title_of_head (candidates : list (option str)) :
  title_of candidates <> [] ->
  isspace (hd 32%N (title_of candidates)) = false.
Proof.
  unfold title_of.
  destruct (Scraper.first_some _ candidates) as [t |] eqn:E; cbn [default];
    [| congruence].
  intros Hne. destruct (ScraperFacts.first_some_found _ _ _ E) as ([text |] & _ & Hf);
    [| discriminate].
  destruct (strip text) as [| c t'] eqn:Es; [discriminate |].
  injection Hf as <-. rewrite <- Es. apply strip_head. rewrite Es. discriminate.
Qed.

Lemma digits_no_break (s : str) :
  forallb Float.ascii_digit s = true -> no_break s = true.
Proof.
  intros H. unfold no_break. induction s as [| c s IH]; [reflexivity |].
  cbn [forallb] in *. apply andb_true_iff in H. destruct H as [Hc Hs].
  apply FloatFacts.ascii_digit_range in Hc. rewrite (IH Hs), andb_true_r.
  apply negb_true_iff, orb_false_iff. rewrite !N.eqb_neq. lia.
Qed.

Lemma digits_last_solid (s : str) :
  s <> [] -> forallb Float.ascii_digit s = true ->
  isspace (List.last s 32%N) = false.
Proof.
  intros Hne H.
  assert (Hl : Float.ascii_digit (List.last s 32%N) = true).
  { rewrite forallb_forall in H. apply H.
    rewrite (app_removelast_last 32%N Hne) at 2.
    apply in_or_app. right. left. reflexivity. }
  apply FloatFacts.ascii_digit_range in Hl. unfold isspace.
  repeat (apply orb_false_iff; split);
    try (apply andb_false_iff; rewrite !N.leb_gt; lia);
    apply N.eqb_neq; lia.
Qed.

Lemma item_url_tidy (title id : str) :
  isspace (hd 32%N title) = false ->
  forallb (fun c => negb (c =? 44)%N) title = true ->
  no_break title = true ->
  id <> [] -> forallb Float.ascii_digit id = true ->
  tidy (title, ITEM_URL ++ id) = true.
Proof.
  intros Hh Hc Hb Hne Hd. unfold tidy. cbn [fst snd].
  rewrite Hh, Hc, Hb, no_break_app, (digits_no_break id Hd).
  rewrite last_app_nonempty by assumption.
  rewrite (digits_last_solid id Hne Hd). reflexivity.
Qed.

Lemma card_written_and_read (pre id rest : str) (candidates : list (option str)) :
  contains (u "id=") pre = false ->
  id <> [] ->
  forallb Float.ascii_digit id = true ->
  rest = [] \/ (exists more, rest = 38%N :: more) ->
  forallb (fun c => negb (c =? 44)%N) (title_of candidates) = true ->
  no_break (title_of candidates) = true ->
  let title :=
    match title_of candidates with
    | [] => u "商品_" ++ id
    | t => t
    end in
  result_of_card (pre ++ u "id=" ++ id ++ rest) candidates
    = Some (line_of (title, ITEM_URL ++ id))
  /\ products_of_lines (read_lines (file_text [line_of (title, ITEM_URL ++ id)]))
     = [(title, ITEM_URL ++ id)].
Proof.
  intros Hpre Hne Hd Hrest Hcomma Hbreak title.
  assert (Htidy : tidy (title, ITEM_URL ++ id) = true).
  { subst title. destruct (title_of candidates) as [| c t] eqn:Et.
    - apply item_url_tidy; [| | | exact Hne | exact Hd].
      + reflexivity.
      + change (u "商品_") with [21830; 21697; 95]%N. cbn [app forallb].
        change (negb (21830 =? 44)%N) with true.
        change (negb (21697 =? 44)%N) with true.
        change (negb (95 =? 44)%N) with true.
        cbn [andb].
        apply (digits_avoid 44%N id ltac:(lia) Hd).
      + rewrite no_break_app. rewrite (digits_no_break id Hd).
        reflexivity.
    - apply item_url_tidy; auto.
      rewrite <- Et. apply title_of_head. rewrite Et. discriminate. }
  split.
  - unfold result_of_card, simplified_url.
    rewrite (item_id_of_link pre id rest Hpre Hd Hrest).
    assert (Hurl : exists c s, pre ++ u "id=" ++ id ++ rest = c :: s).
    { change (u "id=") with [105; 100; 61]%N.
      destruct pre as [| c pre]; cbn [app]; eauto. }
    destruct Hurl as (c & s0 & ->).
    let e := eval vm_compute in ITEM_URL in change ITEM_URL with e.
    cbn [app str_of_id]. subst title.
    destruct (title_of candidates); reflexivity.
  - apply (written_products_read_back [(title, ITEM_URL ++ id)]).
    constructor; [exact Htidy | constructor].
Qed.

(** X14. A card whose link has a number after its first "id=" (followed by
    the end of the link or by "&") and whose title has no comma and no line
    break gives one line of the product file, and the monitor reads from
    that line one product: the title (or "商品_" and the number when no
    title was found) and the item URL with that number. *)
Theorem card_reaches_monitor (pre id rest : str) (candidates : list (option str)) :
  contains (u "id=") pre = false ->
  id <> [] ->
  forallb Float.ascii_digit id = true ->
  rest = [] \/ (exists more, rest = 38%N :: more) ->
  forallb (fun c => negb (c =? 44)%N) (title_of candidates) = true ->
  no_break (title_of candidates) = true ->
  let title :=
    match title_of candidates with
    | [] => u "商品_" ++ id
    | t => t
    end in
  result_of_card (pre ++ u "id=" ++ id ++ rest) candidates
    = Some (line_of (title, ITEM_URL ++ id))
  /\ products_of_lines (read_lines (file_text [line_of (title, ITEM_URL ++ id)]))
     = [(title, ITEM_URL ++ id)].
Proof. exact (card_written_and_read pre id rest candidates). Qed.

Lemma card_reaches_monitor_witness :
  result_of_card
    (u "//item.taobao.com/item.htm?" ++ u "id=" ++ u "123" ++ u "&skuId=5")
    [None; Some (u "  保温杯 500ml  ")]
  = Some (line_of (u "保温杯 500ml", ITEM_URL ++ u "123"))
  /\ products_of_lines
       (read_lines (file_text [line_of (u "保温杯 500ml", ITEM_URL ++ u "123")]))
     = [(u "保温杯 500ml", ITEM_URL ++ u "123")].
Proof.
  apply (card_reaches_monitor (u "//item.taobao.com/item.htm?") (u "123")
           (u "&skuId=5") [None; Some (u "  保温杯 500ml  ")]).
  - vm_compute. reflexivity.
  - vm_compute. discriminate.
  - vm_compute. reflexivity.
  - right. exists (u "skuId=5"). vm_compute. reflexivity.
  - vm_compute. reflexivity.
  - vm_compute. reflexivity.
Defined.

End ExtractorMore.

(** ** The name of the screenshot file *)

Module ScreenshotMore.

Import Screenshot.

Lemma allowed_app (a b : str) : allowed (a ++ b) = allowed a && allowed b.
Proof. unfold allowed. apply forallb_app. Qed.

Lemma allowed_firstn (n : nat) (s : str) :
  allowed s = true -> allowed (List.firstn n s) = true.
Proof.
  revert n. induction s as [| c s IH]; intros [| n] H; try reflexivity.
  unfold allowed in *. cbn [List.firstn forallb] in *.
  apply andb_true_iff in H. destruct H as [Hc Hs].
  rewrite Hc. apply (IH n Hs).
Qed.

Lemma safe_name_allowed (product_name : str) :
  allowed (safe_name product_name) = true
  /\ (length (safe_name product_name) <= 30)%nat.
Proof.
  unfold safe_name.
  set (cleaned := List.filter (fun c => negb (forbidden c)) product_name).
  assert (Hc : allowed cleaned = true).
  { unfold allowed. apply forallb_forall. intros c Hin.
    apply filter_In in Hin. tauto. }
  destruct (30 <? length cleaned)%nat eqn:E.
  - split; [apply allowed_firstn; assumption |].
    rewrite length_firstn. lia.
  - apply Nat.ltb_ge in E. auto.
Qed.

Lemma screenshot_name_allowed (product_name product_id : option str)
    (timestamp : str) :
  allowed (default [] product_id) = true ->
  allowed timestamp = true ->
  allowed (screenshot_name product_name product_id timestamp) = true.
Proof.
  intros Hid Hts. unfold screenshot_name.
  assert (Hpng : allowed (u ".png") = true) by (vm_compute; reflexivity).
  assert (Hsep : allowed (u "_") = true) by (vm_compute; reflexivity).
  destruct (safe_name_allowed (default [] product_name)) as [Hn _].
  destruct (truthy product_name), (truthy product_id);
    cbn [app join]; rewrite ?allowed_app, ?Hn, ?Hid, ?Hts, ?Hsep, ?Hpng;
    reflexivity.
Qed.

(** X13. Whatever the product name, the file name of the screenshot has
    no backslash, slash, star, question mark, colon, double quote, angle
    bracket or bar as long as the product id and the timestamp have none:
    the name is put in without them and cut to 30 characters. *)
Theorem screenshot_name_has_no_forbidden (product_name product_id : option str)
    (timestamp : str) :
  allowed (default [] product_id) = true ->
  allowed timestamp = true ->
  allowed (screenshot_name product_name product_id timestamp) = true
  /\ (length (safe_name (default [] product_name)) <= 30)%nat.
Proof.
  intros Hid Hts. split.
  - apply screenshot_name_allowed; assumption.
  - apply safe_name_allowed.
Qed.

Lemma screenshot_name_has_no_forbidden_witness :
  allowed (screenshot_name (Some (u "a/b: cup?")) (Some (u "123")) (u "0502_0800"))
    = true
  /\ (length (safe_name (default [] (Some (u "a/b: cup?")))) <= 30)%nat.
Proof.
  apply (screenshot_name_has_no_forbidden
           (Some (u "a/b: cup?")) (Some (u "123")) (u "0502_0800")).
  - vm_compute. reflexivity.
  - vm_compute. reflexivity.
Defined.

Example screenshot_name_example :
  screenshot_name (Some (u "a/b: cup?")) (Some (u "123")) (u "0502_0800")
  = u "ab cup_123_0502_0800.png".
Proof. vm_compute. reflexivity. Qed.

End ScreenshotMore.
